(** * MarketMind: session state machine and completion boundary

    A shallow embedding of [ai_services.py] and of the state-carrying part
    of [app.py].

    Conventions.
    - Python text is held as its UTF-8 encoding in a Rocq [string]; the
      needles searched for ("High", "Medium", "choices", "error") are ASCII,
      so substring search on the encoding agrees with search on code points.
    - A Python object decoded from JSON is a [pyval].
    - A call that may raise returns a [result]; [try]/[except Exception] is a
      [match] on it.
    - [st.session_state] is the record [State], threaded explicitly; one run
      of the Streamlit script is the function [app.script_run].
    - The clock ([datetime.datetime.now()]) and the HTTP exchange
      ([requests.post] and [response.json()]) are inputs of the functions
      that use them. *)

From Stdlib Require Import String Ascii List ZArith Lia Bool DecimalString.
From stdpp Require Import base decidable list strings.
Import ListNotations.

Local Open Scope string_scope.
Local Set Warnings "-register-all".

(** ** Python values and the operations the code applies to them *)

Module Py.

(** Objects produced by [response.json()]. A JSON number keeps the text of
    its literal; every operation below treats all numbers alike. A JSON
    object is the decoded [dict]: a key is looked up at its first
    binding. *)
Inductive pyval : Type :=
| PNone
| PBool (b : bool)
| PNum (literal : string)
| PStr (s : string)
| PList (items : list pyval)
| PDict (entries : list (string * pyval)).

(** Exceptions, all subclasses of [Exception]. [Raised] stands for whatever
    a library call raises ([requests] errors, timeouts, JSON decoding). *)
Inductive exn : Type :=
| KeyError (key : pyval)
| IndexError
| TypeError
| Raised (class_name message : string).

Inductive result (A : Type) : Type :=
| Return (a : A)
| Raise (e : exn).
Arguments Return {A} a.
Arguments Raise {A} e.

Definition bind {A B} (r : result A) (k : A -> result B) : result B :=
  match r with
  | Return a => k a
  | Raise e => Raise e
  end.

(** What the interpreter prints: [repr] of a value that is not text, and
    [str(e)] of an exception. Their exact wording depends on the
    interpreter version, so they are left to the runtime. *)
Class Runtime : Type := {
  py_repr : pyval -> string;
  exn_str : exn -> string
}.

(** [str(v)], as an f-string field [{v}] renders it. *)
Definition py_str `{Runtime} (v : pyval) : string :=
  match v with
  | PStr s => s
  | _ => py_repr v
  end.

(** [needle in hay] on two [str]. *)
Fixpoint str_contains (needle hay : string) : bool :=
  String.prefix needle hay ||
  match hay with
  | EmptyString => false
  | String _ rest => str_contains needle rest
  end.

Definition is_str (x : string) (v : pyval) : bool :=
  match v with
  | PStr s => String.eqb x s
  | _ => false
  end.

Fixpoint dict_get (key : string) (entries : list (string * pyval)) : option pyval :=
  match entries with
  | [] => None
  | (k, v) :: rest => if String.eqb key k then Some v else dict_get key rest
  end.

(** [x in container] for a [str] [x]. *)
Definition contains (x : string) (container : pyval) : result bool :=
  match container with
  | PStr s => Return (str_contains x s)
  | PList items => Return (existsb (is_str x) items)
  | PDict entries => Return (match dict_get x entries with Some _ => true | None => false end)
  | PNone | PBool _ | PNum _ => Raise TypeError
  end.

(** [container[key]] for a [str] [key]. *)
Definition getitem (container : pyval) (key : string) : result pyval :=
  match container with
  | PDict entries =>
      match dict_get key entries with
      | Some v => Return v
      | None => Raise (KeyError (PStr key))
      end
  | _ => Raise TypeError
  end.

(** Number of bytes of the UTF-8 sequence that starts with byte [c]. *)
Definition utf8_width (c : ascii) : nat :=
  let n := nat_of_ascii c in
  if Nat.ltb n 192 then 1
  else if Nat.ltb n 224 then 2
  else if Nat.ltb n 240 then 3
  else 4.

Definition first_char (s : string) : string :=
  match s with
  | EmptyString => EmptyString
  | String c _ => String.substring 0 (utf8_width c) s
  end.

(** [container[0]]. The keys of a decoded JSON object are all text, so
    the integer key is never found in a [dict]. *)
Definition getitem0 (container : pyval) : result pyval :=
  match container with
  | PList [] => Raise IndexError
  | PList (v :: _) => Return v
  | PStr EmptyString => Raise IndexError
  | PStr s => Return (PStr (first_char s))
  | PDict _ => Raise (KeyError (PNum "0"))
  | PNone | PBool _ | PNum _ => Raise TypeError
  end.

End Py.

Export Py.

Notation "'let!' x ':=' c1 'in' c2" := (Py.bind c1 (fun x => c2))
  (at level 10, x name, c1 at level 100, c2 at level 200).

(** ** ai_services.py *)

Module ai_services.

(** [requests.post(...)] either raises or yields a response, whose
    [.json()] either raises or yields the decoded payload. *)
Inductive response : Type :=
| Response (json : result pyval).

Definition response_json (r : response) : result pyval :=
  match r with Response j => j end.

(** The HTTP exchange as a function of the prompt, the only part of the
    request that varies. *)
Definition network : Type := string -> result response.

(** The dict returned by the scorer. *)
Record lead_score : Type := LeadScore { score : Z; intent : string }.

Section with_runtime.
Context `{Runtime}.

(** The body of the [try] block of [groq_generate]. *)
Definition groq_generate_try (post : network) (prompt : string) : result pyval :=
  let! response := post prompt in
  let! result := response_json response in
  let! has_choices := contains "choices" result in
  if has_choices : bool then
    let! choices := getitem result "choices" in
    let! first := getitem0 choices in
    let! message := getitem first "message" in
    getitem message "content"
  else
    let! has_error := contains "error" result in
    if has_error : bool then
      let! error := getitem result "error" in
      let! message := getitem error "message" in
      Return (PStr ("Groq API Error: " +:+ py_str message))
    else
      Return (PStr ("Unexpected response: " +:+ py_str result)).

Definition groq_generate (post : network) (prompt : string) : pyval :=
  match groq_generate_try post prompt with
  | Return v => v
  | Raise e => PStr ("Exception occurred: " +:+ exn_str e)
  end.

Definition nl : string := String (ascii_of_nat 10) EmptyString.

Definition lead_prompt (description : string) : string :=
  nl +:+
  "    Analyze this business lead and classify the buying intent." +:+ nl +:+
  nl +:+
  "    Lead:" +:+ nl +:+
  "    " +:+ description +:+ nl +:+
  nl +:+
  "    Classify as one of:" +:+ nl +:+
  "    - High Intent" +:+ nl +:+
  "    - Medium Intent" +:+ nl +:+
  "    - Low Intent" +:+ nl +:+
  nl +:+
  "    Respond with only one label." +:+ nl +:+
  "    ".

Definition hf_lead_score (post : network) (description : string) : result lead_score :=
  let result := groq_generate post (lead_prompt description) in
  let! is_high := contains "High" result in
  if is_high : bool then Return (LeadScore 90 "High Intent")
  else
    let! is_medium := contains "Medium" result in
    if is_medium : bool then Return (LeadScore 65 "Medium Intent")
    else Return (LeadScore 30 "Low Intent").

End with_runtime.

End ai_services.


(** ** app.py *)

Module app.
Import ai_services.

Definition DEFAULT_PAGE : string := "Dashboard".

Definition VALID_PAGES : list string :=
  [ "Dashboard"; "Campaign"; "Sales"; "Lead";
    "Summary"; "Research"; "Chat";
    "History"; "ChatHistory" ].

(** [datetime.datetime.now()]: the fields [strftime] reads. *)
Record datetime : Type := {
  year : nat; month : nat; day : nat;
  hour : nat; minute : nat; second : nat
}.

Definition digit (n : nat) : ascii := ascii_of_nat (48 + n mod 10).

Definition pad2 (n : nat) : string :=
  String (digit (n / 10)) (String (digit n) EmptyString).

Definition pad4 (n : nat) : string :=
  String (digit (n / 1000)) (String (digit (n / 100)) (pad2 n)).

(** [now.strftime("%Y-%m-%d")], [now.strftime("%Y-%m")] and
    [now.strftime("%H:%M:%S")]. *)
Definition strftime_Ymd (now : datetime) : string :=
  pad4 (year now) +:+ "-" +:+ pad2 (month now) +:+ "-" +:+ pad2 (day now).

Definition strftime_Ym (now : datetime) : string :=
  pad4 (year now) +:+ "-" +:+ pad2 (month now).

Definition strftime_HMS (now : datetime) : string :=
  pad2 (hour now) +:+ ":" +:+ pad2 (minute now) +:+ ":" +:+ pad2 (second now).

(** An entry of [tool_history]. *)
Module tool.
Record t : Type := {
  feature : string;
  input : string;
  output : pyval;
  date : string;
  month : string;
  time : string
}.
End tool.

(** An element of [current_chat]. *)
Record chat_message : Type := { role : string; content : pyval }.

(** An entry of [chat_history]. *)
Module chat.
Record t : Type := {
  messages : list chat_message;
  date : string;
  month : string;
  time : string
}.
End chat.

(** What [selected_item] and [monthly_usage] hold: either kind of entry. *)
Inductive item : Type :=
| ToolItem (r : tool.t)
| ChatItem (c : chat.t).

Definition item_month (i : item) : string :=
  match i with
  | ToolItem r => tool.month r
  | ChatItem c => chat.month c
  end.

(** [st.session_state]. *)
Record State : Type := {
  page : string;
  tool_history : list tool.t;
  chat_history : list chat.t;
  current_chat : list chat_message;
  selected_item : option item
}.

(** The session as the init block creates it. *)
Definition initial_state : State :=
  {| page := DEFAULT_PAGE;
     tool_history := [];
     chat_history := [];
     current_chat := [];
     selected_item := None |}.

Definition set_page (p : string) (st : State) : State :=
  {| page := p;
     tool_history := tool_history st;
     chat_history := chat_history st;
     current_chat := current_chat st;
     selected_item := selected_item st |}.

Definition set_selected_item (i : option item) (st : State) : State :=
  {| page := page st;
     tool_history := tool_history st;
     chat_history := chat_history st;
     current_chat := current_chat st;
     selected_item := i |}.

Definition set_current_chat (c : list chat_message) (st : State) : State :=
  {| page := page st;
     tool_history := tool_history st;
     chat_history := chat_history st;
     current_chat := c;
     selected_item := selected_item st |}.

Definition append_tool_history (r : tool.t) (st : State) : State :=
  {| page := page st;
     tool_history := tool_history st ++ [r];
     chat_history := chat_history st;
     current_chat := current_chat st;
     selected_item := selected_item st |}.

Definition append_chat_history (c : chat.t) (st : State) : State :=
  {| page := page st;
     tool_history := tool_history st;
     chat_history := chat_history st ++ [c];
     current_chat := current_chat st;
     selected_item := selected_item st |}.

(** [page in VALID_PAGES]. *)
Definition valid_page (p : string) : bool := existsb (String.eqb p) VALID_PAGES.

(** The end of the init block: an unknown page falls back to the default. *)
Definition session_init (st : State) : State :=
  if valid_page (page st) then st else set_page DEFAULT_PAGE st.

(** How a piece of the script ends: it falls through to the next statement,
    asks for a rerun ([st.rerun()]), or dies from an exception nobody
    catches. *)
Inductive flow : Type :=
| Continue
| Rerun
| Uncaught (e : exn).

Section with_runtime.
Context `{Runtime}.

Definition safe_groq (post : network) (prompt : string) : pyval :=
  match Return (groq_generate post prompt) with
  | Return v => v
  | Raise e => PStr ("⚠️ Groq API Error:" +:+ nl +:+ exn_str e)
  end.

Definition safe_hf (post : network) (description : string) : lead_score :=
  match hf_lead_score post description with
  | Return r => r
  | Raise e => LeadScore 0 ("Error: " +:+ exn_str e)
  end.

End with_runtime.

Definition save_tool_history (now : datetime)
    (feature user_input : string) (output : pyval) (st : State) : State :=
  append_tool_history
    {| tool.feature := feature;
       tool.input := user_input;
       tool.output := output;
       tool.date := strftime_Ymd now;
       tool.month := strftime_Ym now;
       tool.time := strftime_HMS now |} st.

(** The two statements under the guard of [save_chat_history]. The record
    holds a copy of the transcript, so later changes of [current_chat] do
    not reach it. *)
Definition commit_current_chat (now : datetime) (st : State) : State :=
  append_chat_history
    {| chat.messages := current_chat st;
       chat.date := strftime_Ymd now;
       chat.month := strftime_Ym now;
       chat.time := strftime_HMS now |} st.

Definition reset_current_chat (st : State) : State := set_current_chat [] st.

Definition save_chat_history (now : datetime) (st : State) : State :=
  match current_chat st with
  | [] => st
  | _ :: _ => reset_current_chat (commit_current_chat now st)
  end.

(** Every state the session is in while [save_chat_history] runs: before
    the call and after each statement executed. *)
Definition save_chat_history_states (now : datetime) (st : State) : list State :=
  match current_chat st with
  | [] => [st]
  | _ :: _ =>
      [st; commit_current_chat now st;
       reset_current_chat (commit_current_chat now st)]
  end.

Definition go (target : string) (keep : bool) (st : State) : State * flow :=
  if valid_page target then
    let st1 := set_page target st in
    let st2 := if negb keep then set_selected_item None st1 else st1 in
    (st2, Rerun)
  else (st, Continue).

(** Several [go] calls in a row, each on the state the previous one left. *)
Definition go_all (calls : list (string * bool)) (st : State) : State :=
  fold_left (fun s c => fst (go (fst c) (snd c) s)) calls st.

Definition nav_items : list (string * string) :=
  [ ("Dashboard", "Dashboard");
    ("Campaign Generator", "Campaign");
    ("Sales Pitch", "Sales");
    ("Lead Scoring", "Lead");
    ("Executive Summary", "Summary");
    ("Business Research", "Research");
    ("AI Chat", "Chat") ].

(** The body of a sidebar history button: remember the entry, then move to
    its detail page keeping it. *)
Definition select_history_item (i : item) (target : string) (st : State) : State * flow :=
  go target true (set_selected_item (Some i) st).

(** The comprehension behind the "This Month Activity" metric of the
    dashboard, where [current_month] is [now.strftime("%Y-%m")]. *)
Definition monthly_usage (tool_data : list tool.t) (chat_data : list chat.t)
    (current_month : string) : list item :=
  map ToolItem (List.filter (fun item => String.eqb (tool.month item) current_month) tool_data)
  ++ map ChatItem (List.filter (fun chat => String.eqb (chat.month chat) current_month) chat_data).

(** [sep.join(parts)]. *)
Fixpoint join (sep : string) (parts : list string) : string :=
  match parts with
  | [] => EmptyString
  | [p] => p
  | p :: rest => p +:+ sep +:+ join sep rest
  end.

(** [bool(s)] for a [str]. *)
Definition nonempty (s : string) : bool :=
  match s with
  | EmptyString => false
  | String _ _ => true
  end.

(** [str(n)] for an [int]. *)
Definition int_str (n : Z) : string := NilZero.string_of_int (Z.to_int n).

(** What the user did to trigger a run of the script: at most one button is
    pressed, and the text widgets hold what was typed. A button that is not
    on the page being drawn is never seen pressed. *)
Inductive action : Type :=
| Idle
| SidebarNav (i : nat)
| SidebarTool (idx : nat)
| SidebarChat (idx : nat)
| Back
| InvestorPitch (post : network)
| CampaignGenerate (product audience : string) (post : network)
| SalesGenerate (product persona : string) (post : network)
| LeadScoreClick (description : string) (post : network)
| SummaryGenerate (content : string) (post : network)
| ResearchSearch (query : string) (post : network)
| ChatSend (user_input : string) (post : network)
| ChatSave.

Definition sidebar (a : action) (st : State) : State * flow :=
  match a with
  | SidebarNav i =>
      match nth_error nav_items i with
      | Some (_, target) => go target false st
      | None => (st, Continue)
      end
  | SidebarTool idx =>
      match nth_error (rev (tool_history st)) idx with
      | Some r => select_history_item (ToolItem r) "History" st
      | None => (st, Continue)
      end
  | SidebarChat idx =>
      match nth_error (rev (chat_history st)) idx with
      | Some c => select_history_item (ChatItem c) "ChatHistory" st
      | None => (st, Continue)
      end
  | _ => (st, Continue)
  end.

(** [st.download_button] takes text (or bytes, or an open file) as data and
    raises on any other object. The class and the wording of that
    exception depend on the Streamlit version; [download_error] stands for
    it. *)
Definition download_error : exn :=
  Raised "StreamlitAPIException" "Invalid binary data format".

(** [download_output(title, content)]: the button is drawn, or the call
    raises. The file name, made of the title and the time of day, does not
    reach the session. *)
Definition download_output (title : string) (content : pyval) : result unit :=
  match content with
  | PStr _ => Return tt
  | PNone | PBool _ | PNum _ | PList _ | PDict _ => Raise download_error
  end.

Section with_runtime_pages.
Context `{Runtime}.

(** The "Send" handler of the chat page. *)
Definition chat_send (user_input : string) (post : network) (st : State) : State * flow :=
  if nonempty user_input then
    let st1 :=
      set_current_chat
        (current_chat st ++ [{| role := "user"; content := PStr user_input |}]) st in
    let context :=
      join nl (map (fun m => role m +:+ ": " +:+ py_str (content m)) (current_chat st1)) in
    let response := safe_groq post context in
    let st2 :=
      set_current_chat
        (current_chat st1 ++ [{| role := "assistant"; content := response |}]) st1 in
    (st2, Rerun)
  else (st, Continue).

Definition history_page (a : action) (st : State) : State * flow :=
  match selected_item st with
  | Some (ToolItem item) =>
      match download_output (tool.feature item) (tool.output item) with
      | Raise e => (st, Uncaught e)
      | Return _ =>
          match a with
          | Back => go "Dashboard" false st
          | _ => (st, Continue)
          end
      end
  | Some (ChatItem _) => (st, Uncaught (KeyError (PStr "feature")))
  | None => go "Dashboard" false st
  end.

Definition chat_history_page (a : action) (st : State) : State * flow :=
  match selected_item st with
  | Some (ChatItem _) =>
      match a with
      | Back => go "Chat" false st
      | _ => (st, Continue)
      end
  | Some (ToolItem _) => (st, Uncaught (KeyError (PStr "messages")))
  | None => go "Dashboard" false st
  end.

Definition campaign_page (now : datetime) (a : action) (st : State) : State * flow :=
  match a with
  | CampaignGenerate product audience post =>
      let prompt := "Create marketing campaign for " +:+ product +:+ " targeting " +:+ audience in
      let result := safe_groq post prompt in
      match download_output "Campaign" result with
      | Raise e => (st, Uncaught e)
      | Return _ => (save_tool_history now "Campaign" prompt result st, Continue)
      end
  | _ => (st, Continue)
  end.

Definition sales_page (now : datetime) (a : action) (st : State) : State * flow :=
  match a with
  | SalesGenerate product persona post =>
      let prompt := "Create sales pitch for " +:+ product +:+ " targeting " +:+ persona in
      let result := safe_groq post prompt in
      match download_output "Sales_Pitch" result with
      | Raise e => (st, Uncaught e)
      | Return _ => (save_tool_history now "Sales" prompt result st, Continue)
      end
  | _ => (st, Continue)
  end.

Definition lead_page (now : datetime) (a : action) (st : State) : State * flow :=
  match a with
  | LeadScoreClick description post =>
      let result := safe_hf post description in
      let output := "Score: " +:+ int_str (score result) +:+ " | Intent: " +:+ intent result in
      (save_tool_history now "Lead" description (PStr output) st, Continue)
  | _ => (st, Continue)
  end.

Definition summary_page (now : datetime) (a : action) (st : State) : State * flow :=
  match a with
  | SummaryGenerate content post =>
      let result := safe_groq post ("Summarize: " +:+ content) in
      match download_output "Summary" result with
      | Raise e => (st, Uncaught e)
      | Return _ => (save_tool_history now "Summary" content result st, Continue)
      end
  | _ => (st, Continue)
  end.

Definition research_page (now : datetime) (a : action) (st : State) : State * flow :=
  match a with
  | ResearchSearch query post =>
      let result := safe_groq post ("Business research on " +:+ query) in
      match download_output "Research" result with
      | Raise e => (st, Uncaught e)
      | Return _ => (save_tool_history now "Research" query result st, Continue)
      end
  | _ => (st, Continue)
  end.

Definition chat_page (now : datetime) (a : action) (st : State) : State * flow :=
  match a with
  | ChatSend user_input post => chat_send user_input post st
  | ChatSave => (save_chat_history now st, Continue)
  | _ => (st, Continue)
  end.

(** The router. Each branch gives what the page does to the session and how
    the run ends. The dashboard writes nothing to the session: it reads
    the histories, asks the completion service for texts and hands them to
    the chart, download and report widgets. Those requests are no input of
    a run here, so the branch gives the session as it is left in every
    case, also when the run dies in one of the widgets, and does not tell
    that end of the run from the normal one. *)
Definition router (now : datetime) (a : action) (st : State) : State * flow :=
  let page := page st in
  if String.eqb page "Dashboard" then (st, Continue)
  else if String.eqb page "History" then history_page a st
  else if String.eqb page "ChatHistory" then chat_history_page a st
  else if String.eqb page "Campaign" then campaign_page now a st
  else if String.eqb page "Sales" then sales_page now a st
  else if String.eqb page "Lead" then lead_page now a st
  else if String.eqb page "Summary" then summary_page now a st
  else if String.eqb page "Research" then research_page now a st
  else if String.eqb page "Chat" then chat_page now a st
  else (st, Continue).

(** One run of the script, top to bottom; [st.rerun()] and an uncaught
    exception end it on the spot. *)
Definition script_run (now : datetime) (a : action) (st : State) : State * flow :=
  let st0 := session_init st in
  match sidebar a st0 with
  | (st1, Continue) => router now a st1
  | stopped => stopped
  end.

(** A session: the runs of the script one after the other, each with its
    own clock reading and user action. *)
Definition run_session (runs : list (datetime * action)) (st : State) : State :=
  fold_left (fun s r => fst (script_run (fst r) (snd r) s)) runs st.

End with_runtime_pages.

(** A runtime to evaluate examples with. *)
Definition example_runtime : Runtime :=
  {| py_repr := fun _ => "<object>";
     exn_str := fun e =>
       match e with
       | KeyError _ => "<key>"
       | IndexError => "list index out of range"
       | TypeError => "<type error>"
       | Raised _ message => message
       end |}.

End app.

(** ** Vocabulary of the properties *)

Module spec.
Import ai_services app.

(** [needle] occurs somewhere in [text]. *)
Definition occurs (needle text : string) : Prop :=
  exists before after, text = before +:+ needle +:+ after.

(** The payload is a chat completion whose first choice carries [v] as the
    content of its message. *)
Definition completion_content (payload v : pyval) : Prop :=
  exists entries first others message,
    payload = PDict entries /\
    dict_get "choices" entries = Some (PList (PDict first :: others)) /\
    dict_get "message" first = Some (PDict message) /\
    dict_get "content" message = Some v.

(** The failures of the completion service that [groq_generate] turns into
    a text: the request itself raises (network error, timeout), the body
    is not JSON, or the JSON is not a completion (an API error object, or
    any other shape). A payload of completion shape is not among them,
    whatever its content. *)
Inductive service_failure (post : network) (prompt : string) : Prop :=
| request_raises (e : exn) :
    post prompt = Raise e -> service_failure post prompt
| body_not_json (e : exn) :
    post prompt = Return (Response (Raise e)) -> service_failure post prompt
| not_a_completion (payload : pyval) :
    post prompt = Return (Response (Return payload)) ->
    (forall v, ~ completion_content payload v) ->
    service_failure post prompt.

(** The three texts [groq_generate] makes out of a failure. *)
Definition error_text `{Runtime} (v : pyval) : Prop :=
  (exists e, v = PStr ("Exception occurred: " +:+ exn_str e)) \/
  (exists m, v = PStr ("Groq API Error: " +:+ py_str m)) \/
  (exists payload, v = PStr ("Unexpected response: " +:+ py_str payload)).

(** Values on which [x in v] raises. *)
Definition not_iterable (v : pyval) : Prop :=
  match v with
  | PNone | PBool _ | PNum _ => True
  | PStr _ | PList _ | PDict _ => False
  end.

(** Number of messages of a transcript written by the user. *)
Definition user_messages (chat : list chat_message) : nat :=
  length (List.filter (fun m => String.eqb (role m) "user") chat).

(** Both histories of [st'] start with those of [st]. *)
Definition extends (st st' : State) : Prop :=
  tool_history st `prefix_of` tool_history st' /\
  chat_history st `prefix_of` chat_history st'.

(** The record [save_chat_history] builds at clock reading [now]. *)
Definition chat_record (now : datetime) (transcript : list chat_message) : chat.t :=
  {| chat.messages := transcript;
     chat.date := strftime_Ymd now;
     chat.month := strftime_Ym now;
     chat.time := strftime_HMS now |}.

(** Sample exchanges with the completion service. *)
Definition reply_with (v : pyval) : network := fun _ =>
  Return (Response (Return
    (PDict [("choices",
             PList [PDict [("message",
                            PDict [("role", PStr "assistant"); ("content", v)])]])]))).

Definition timed_out : network := fun _ => Raise (Raised "ReadTimeout" "timeout").

Definition sample_time : datetime :=
  {| year := 2024; month := 3; day := 2; hour := 9; minute := 5; second := 0 |}.

(** A session on the chat page after one exchange that failed. *)
Definition sample_chatting : State :=
  {| page := "Chat";
     tool_history := [];
     chat_history := [];
     current_chat :=
       [ {| role := "user"; content := PStr "hello" |};
         {| role := "assistant"; content := PStr "Exception occurred: timeout" |} ];
     selected_item := None |}.

(** A tool record and a session that has it in its history. *)
Definition sample_record : tool.t :=
  {| tool.feature := "Summary";
     tool.input := "notes";
     tool.output := PStr "summary";
     tool.date := "2024-03-02";
     tool.month := "2024-03";
     tool.time := "09:05:00" |}.

Definition sample_with_history : State :=
  {| page := "Summary";
     tool_history := [sample_record];
     chat_history := [];
     current_chat := [];
     selected_item := None |}.

(** Targets that are not pages. *)
Definition unknown_targets : list (string * bool) :=
  [ ("Settings", false); ("", true); ("dashboard", false) ].

End spec.

(** ** app.py: the dashboard figures and the text of the PDF report *)

Module dashboard.
Import ai_services app.

(** The figures the dashboard shows. [productivity_score] is computed only
    when something was used; otherwise the page shows a hint instead. *)
Record metrics : Type := {
  total_tools : nat;
  total_chats : nat;
  total_usage : nat;
  this_month_activity : nat;
  productivity_score : option nat
}.

Definition dashboard_metrics (st : State) (current_month : string) : metrics :=
  let tool_data := tool_history st in
  let chat_data := chat_history st in
  let total_tools := length tool_data in
  let total_chats := length chat_data in
  let total_usage := total_tools + total_chats in
  let monthly_usage := monthly_usage tool_data chat_data current_month in
  {| total_tools := total_tools;
     total_chats := total_chats;
     total_usage := total_usage;
     this_month_activity := length monthly_usage;
     productivity_score :=
       if Nat.ltb 0 total_usage then Some (Nat.min 100 (total_usage * 5)) else None |}.

(** [text.replace("\n", "<br/>")], as [generate_pdf_report] applies it to
    the text of the report before making a paragraph of it. *)
Fixpoint replace_newlines (text : string) : string :=
  match text with
  | EmptyString => EmptyString
  | String c rest =>
      if Ascii.eqb c (ascii_of_nat 10) then "<br/>" +:+ replace_newlines rest
      else String c (replace_newlines rest)
  end.

End dashboard.

(** ** Vocabulary of the session invariants *)

Module invariants.
Import ai_services app.

(** The features a tool record can carry: the pages that save one. *)
Definition tool_features : list string :=
  [ "Campaign"; "Sales"; "Lead"; "Summary"; "Research" ].

(** A detail page is shown exactly when an entry of its kind is selected. *)
Definition selection_matches_page (st : State) : Prop :=
  (page st = "History" <-> exists r, selected_item st = Some (ToolItem r)) /\
  (page st = "ChatHistory" <-> exists c, selected_item st = Some (ChatItem c)).

(** The selected entry is one of the history. *)
Definition selection_in_history (st : State) : Prop :=
  match selected_item st with
  | Some (ToolItem r) => In r (tool_history st)
  | Some (ChatItem c) => In c (chat_history st)
  | None => True
  end.

(** A transcript made of complete exchanges: a non-empty message of the
    user, then the reply to it. *)
Inductive exchanges : list chat_message -> Prop :=
| exchanges_nil : exchanges []
| exchanges_snoc (chat : list chat_message) (text : string) (reply : pyval) :
    exchanges chat ->
    text <> "" ->
    exchanges (chat ++ [ {| role := "user"; content := PStr text |};
                         {| role := "assistant"; content := reply |} ])%list.

(** The three time fields of a record come from one clock reading: [date]
    is ten characters long, [time] eight, and [month] is how [date]
    starts. *)
Definition stamped (date month time : string) : Prop :=
  String.length date = 10 /\
  String.length time = 8 /\
  month = String.substring 0 7 date.

Definition tool_record_ok (r : tool.t) : Prop :=
  In (tool.feature r) tool_features /\
  stamped (tool.date r) (tool.month r) (tool.time r).

Definition chat_record_ok (c : chat.t) : Prop :=
  chat.messages c <> [] /\
  exchanges (chat.messages c) /\
  stamped (chat.date c) (chat.month c) (chat.time c).

Definition records_ok (st : State) : Prop :=
  Forall tool_record_ok (tool_history st) /\
  Forall chat_record_ok (chat_history st) /\
  exchanges (current_chat st).

Section with_runtime.
Context `{Runtime}.

(** What one run of the script can do to the session once the init block
    has run: nothing, a sidebar navigation, a selection from either
    history, a tool result saved on the page of that tool, a message sent
    or the chat saved on the chat page. *)
Inductive transition (s : State) : State -> Prop :=
| tr_none : transition s s
| tr_navigate (target : string) :
    In target (map snd nav_items) ->
    transition s (fst (go target false s))
| tr_select_tool (r : tool.t) :
    In r (tool_history s) ->
    transition s (fst (select_history_item (ToolItem r) "History" s))
| tr_select_chat (c : chat.t) :
    In c (chat_history s) ->
    transition s (fst (select_history_item (ChatItem c) "ChatHistory" s))
| tr_save_tool (now : datetime) (feature user_input : string) (output : pyval) :
    In feature tool_features ->
    page s = feature ->
    transition s (save_tool_history now feature user_input output s)
| tr_send (user_input : string) (post : network) :
    page s = "Chat" ->
    transition s (fst (chat_send user_input post s))
| tr_save_chat (now : datetime) :
    page s = "Chat" ->
    transition s (save_chat_history now s).

End with_runtime.

End invariants.

(** ** More sample exchanges and sessions *)

Module samples.
Import ai_services app spec.

(** The service answers with an error object. *)
Definition error_reply (m : string) : network := fun _ =>
  Return (Response (Return
    (PDict [("error", PDict [("message", PStr m);
                             ("type", PStr "invalid_request_error")])]))).

(** The service answers with no choice at all, and an error beside. *)
Definition empty_choices : list (string * pyval) :=
  [("choices", PList []);
   ("error", PDict [("message", PStr "no capacity")])].

Definition empty_choices_reply : network := fun _ =>
  Return (Response (Return (PDict empty_choices))).

(** The service repeats the prompt. *)
Definition echo : network := fun prompt => reply_with (PStr prompt) prompt.

(** A session on the Lead page. *)
Definition sample_on_lead : State :=
  {| page := "Lead";
     tool_history := [];
     chat_history := [];
     current_chat := [];
     selected_item := None |}.

(** A session on the Campaign page. *)
Definition sample_on_campaign : State :=
  {| page := "Campaign";
     tool_history := [];
     chat_history := [];
     current_chat := [];
     selected_item := None |}.

(** A later tool record, and a session with both records in its history,
    the later one last. *)
Definition sample_later_record : tool.t :=
  {| tool.feature := "Research";
     tool.input := "tea market";
     tool.output := PStr "findings";
     tool.date := "2024-03-03";
     tool.month := "2024-03";
     tool.time := "10:00:00" |}.

Definition sample_two_tools : State :=
  {| page := "Dashboard";
     tool_history := [sample_record; sample_later_record];
     chat_history := [];
     current_chat := [];
     selected_item := None |}.

(** A later chat, and a session with two saved chats, the later one last. *)
Definition sample_later_time : datetime :=
  {| year := 2024; month := 3; day := 3; hour := 10; minute := 0; second := 0 |}.

Definition sample_later_chat : chat.t :=
  chat_record sample_later_time
    [ {| role := "user"; content := PStr "prices?" |};
      {| role := "assistant"; content := PStr "see the list" |} ].

Definition sample_two_chats : State :=
  {| page := "Dashboard";
     tool_history := [];
     chat_history := [chat_record sample_time (current_chat sample_chatting);
                      sample_later_chat];
     current_chat := [];
     selected_item := None |}.

End samples.

Import ai_services app spec dashboard invariants samples.
Local Open Scope list_scope.

(** ** Text *)

Lemma string_prefix_spec (p s : string) :
  String.prefix p s = true <-> exists rest, s = p +:+ rest.
Proof.
  revert s. induction p as [|c p IH]; intros s.
  - split; [intros _; exists s; reflexivity | intros _; destruct s; reflexivity].
  - destruct s as [|d s]; simpl.
    + split; [discriminate | intros [rest Hr]; discriminate].
    + destruct (ascii_dec c d) as [->|Hne].
      * rewrite IH. split; intros [rest Hr]; exists rest.
        -- now rewrite Hr.
        -- now inversion Hr.
      * split; [discriminate | intros [rest Hr]; inversion Hr; congruence].
Qed.

Lemma str_contains_unfold (p s : string) :
  str_contains p s =
  String.prefix p s ||
  match s with EmptyString => false | String _ rest => str_contains p rest end.
Proof. destruct s; reflexivity. Qed.

Lemma str_contains_spec (p s : string) :
  str_contains p s = true <-> occurs p s.
Proof.
  unfold occurs. split.
  - induction s as [|c s IH]; rewrite str_contains_unfold; intros Hc;
      apply orb_true_iff in Hc as [Hp|Hr]; try discriminate.
    + apply string_prefix_spec in Hp as [rest ->]. now exists EmptyString, rest.
    + apply string_prefix_spec in Hp as [rest ->]. now exists EmptyString, rest.
    + destruct (IH Hr) as (a & b & ->). now exists (String c a), b.
  - intros (a & b & ->). induction a as [|c a IH];
      rewrite str_contains_unfold; apply orb_true_iff.
    + left. apply string_prefix_spec. now exists b.
    + right. exact IH.
Qed.

Lemma str_contains_false (p s : string) :
  str_contains p s = false <-> ~ occurs p s.
Proof.
  rewrite <- str_contains_spec. destruct (str_contains p s); split; intros; congruence.
Qed.

(** ** The completion boundary *)

Section completion_boundary.
Context `{Runtime}.

Lemma groq_generate_request_raises (post : network) (prompt : string) (e : exn) :
  post prompt = Raise e ->
  groq_generate post prompt = PStr ("Exception occurred: " +:+ exn_str e).
Proof. intros Hp. unfold groq_generate, groq_generate_try. now rewrite Hp. Qed.

Lemma groq_generate_body_not_json (post : network) (prompt : string) (e : exn) :
  post prompt = Return (Response (Raise e)) ->
  groq_generate post prompt = PStr ("Exception occurred: " +:+ exn_str e).
Proof. intros Hp. unfold groq_generate, groq_generate_try. now rewrite Hp. Qed.

Lemma error_text_exception (e : exn) :
  error_text (PStr ("Exception occurred: " +:+ exn_str e)).
Proof. left. now exists e. Qed.

Lemma error_text_api_error (m : pyval) :
  error_text (PStr ("Groq API Error: " +:+ py_str m)).
Proof. right; left. now exists m. Qed.

Lemma error_text_unexpected (payload : pyval) :
  error_text (PStr ("Unexpected response: " +:+ py_str payload)).
Proof. right; right. now exists payload. Qed.

(** The [else] arm of the [try] block: an error object or anything else. *)
Lemma groq_generate_no_choices (post : network) (prompt : string) (payload : pyval) :
  post prompt = Return (Response (Return payload)) ->
  contains "choices" payload = Return false ->
  error_text (groq_generate post prompt).
Proof.
  intros Hp Hc. unfold groq_generate, groq_generate_try.
  rewrite Hp. cbn [bind response_json]. rewrite Hc. cbn [bind].
  destruct (contains "error" payload) as [[|]|e] eqn:He; cbn [bind].
  - destruct (getitem payload "error") as [err|e]; cbn [bind];
      [|apply error_text_exception].
    destruct (getitem err "message") as [m|e]; cbn [bind];
      [apply error_text_api_error | apply error_text_exception].
  - apply error_text_unexpected.
  - apply error_text_exception.
Qed.

(** A decoded payload either is a completion, whose content is returned as
    it is, or comes back as one of the error texts. *)
Lemma groq_generate_payload (post : network) (prompt : string) (payload : pyval) :
  post prompt = Return (Response (Return payload)) ->
  (exists v, completion_content payload v /\ groq_generate post prompt = v) \/
  error_text (groq_generate post prompt).
Proof.
  intros Hp.
  destruct (contains "choices" payload) as [[|]|e] eqn:Hc.
  - unfold groq_generate, groq_generate_try.
    rewrite Hp. cbn [bind response_json]. rewrite Hc. cbn [bind].
    destruct payload as [| | | |items|entries];
      try (right; apply error_text_exception).
    cbn [getitem].
    destruct (dict_get "choices" entries) as [choices|] eqn:Hch; cbn [bind];
      [|right; apply error_text_exception].
    destruct choices as [| | |[|c s]|[|first others]|d]; cbn [getitem0 bind];
      try (right; apply error_text_exception).
    destruct first as [| | | | |message_holder]; cbn [getitem bind];
      try (right; apply error_text_exception).
    destruct (dict_get "message" message_holder) as [message|] eqn:Hm; cbn [bind];
      [|right; apply error_text_exception].
    destruct message as [| | | | |fields]; cbn [getitem];
      try (right; apply error_text_exception).
    destruct (dict_get "content" fields) as [v|] eqn:Hv;
      [|right; apply error_text_exception].
    left. exists v. split; [|reflexivity].
    exists entries, message_holder, others, fields. auto.
  - right. now apply groq_generate_no_choices with payload.
  - right. unfold groq_generate, groq_generate_try.
    rewrite Hp. cbn [bind response_json]. rewrite Hc. apply error_text_exception.
Qed.

(** Whatever [groq_generate] returns that is not text is the content of a
    completion. *)
Lemma groq_generate_not_text (post : network) (prompt : string) :
  (exists s, groq_generate post prompt = PStr s) \/
  (exists payload,
     post prompt = Return (Response (Return payload)) /\
     completion_content payload (groq_generate post prompt)).
Proof.
  destruct (post prompt) as [[[payload|e]]|e] eqn:Hp.
  - destruct (groq_generate_payload post prompt payload Hp) as [(v & Hv & Hg)|Herr].
    + right. exists payload. now rewrite Hg.
    + left. destruct Herr as [[e ->]|[[m ->]|[p ->]]]; eauto.
  - left. eexists. apply (groq_generate_body_not_json _ _ _ Hp).
  - left. eexists. apply (groq_generate_request_raises _ _ _ Hp).
Qed.

Lemma safe_groq_eq (post : network) (prompt : string) :
  safe_groq post prompt = groq_generate post prompt.
Proof. reflexivity. Qed.

Lemma session_init_valid (st : State) :
  valid_page (page st) = true -> session_init st = st.
Proof. intros Hv. unfold session_init. now rewrite Hv. Qed.

Lemma script_run_on_page (now : datetime) (a : action) (st : State) :
  valid_page (page st) = true ->
  sidebar a st = (st, Continue) ->
  script_run now a st = router now a st.
Proof.
  intros Hv Hs. unfold script_run. rewrite (session_init_valid st Hv). now rewrite Hs.
Qed.

Lemma router_on_page (now : datetime) (a : action) (st : State) :
  (page st = "Campaign" -> router now a st = campaign_page now a st) /\
  (page st = "Sales" -> router now a st = sales_page now a st) /\
  (page st = "Summary" -> router now a st = summary_page now a st) /\
  (page st = "Research" -> router now a st = research_page now a st) /\
  (page st = "Chat" -> router now a st = chat_page now a st).
Proof. unfold router. repeat split; intros ->; reflexivity. Qed.

Lemma nonempty_true (s : string) : s <> "" -> nonempty s = true.
Proof. destruct s; [congruence | reflexivity]. Qed.

Lemma safe_groq_failure (post : network) (prompt : string) :
  service_failure post prompt ->
  error_text (safe_groq post prompt) /\ exists s, safe_groq post prompt = PStr s.
Proof.
  intros Hfail.
  assert (Herr : error_text (safe_groq post prompt)).
  { rewrite safe_groq_eq. destruct Hfail as [e Hp|e Hp|payload Hp Hno].
    - rewrite (groq_generate_request_raises _ _ _ Hp). apply error_text_exception.
    - rewrite (groq_generate_body_not_json _ _ _ Hp). apply error_text_exception.
    - destruct (groq_generate_payload post prompt payload Hp) as [(v & Hv & _)|Herr].
      + now destruct (Hno v).
      + exact Herr. }
  split; [exact Herr|].
  destruct Herr as [[e ->]|[[m ->]|[p ->]]]; eauto.
Qed.

(** C7, as the code has it. Whenever the completion service fails on a
    prompt in one of these ways: the request raises (network error,
    timeout), the body is not JSON, or the JSON is not a completion (an API
    error object or any other shape), [safe_groq] raises nothing and
    returns a text, one of the three error texts. On the four tool pages
    that call it, the download button accepts that text, the run ends
    normally and leaves exactly one new record at the end of
    [tool_history], with the error text as output; on the chat page the
    text becomes the reply of the assistant. Nothing else in the session
    changes. *)
Theorem service_failure_becomes_text (post : network) (prompt : string) :
  service_failure post prompt ->
  error_text (safe_groq post prompt) /\
  (exists s, safe_groq post prompt = PStr s) /\
  forall now st,
    let saved feature user_input :=
      ({| page := page st;
          tool_history :=
            tool_history st ++
            [ {| tool.feature := feature;
                 tool.input := user_input;
                 tool.output := safe_groq post prompt;
                 tool.date := strftime_Ymd now;
                 tool.month := strftime_Ym now;
                 tool.time := strftime_HMS now |} ];
          chat_history := chat_history st;
          current_chat := current_chat st;
          selected_item := selected_item st |}, Continue) in
    (page st = "Campaign" ->
     forall product audience,
       prompt = "Create marketing campaign for " +:+ product +:+ " targeting " +:+ audience ->
       script_run now (CampaignGenerate product audience post) st
       = saved "Campaign" prompt) /\
    (page st = "Sales" ->
     forall product persona,
       prompt = "Create sales pitch for " +:+ product +:+ " targeting " +:+ persona ->
       script_run now (SalesGenerate product persona post) st
       = saved "Sales" prompt) /\
    (page st = "Summary" ->
     forall content,
       prompt = "Summarize: " +:+ content ->
       script_run now (SummaryGenerate content post) st
       = saved "Summary" content) /\
    (page st = "Research" ->
     forall query,
       prompt = "Business research on " +:+ query ->
       script_run now (ResearchSearch query post) st
       = saved "Research" query) /\
    (page st = "Chat" ->
     forall user_input,
       user_input <> "" ->
       prompt = join nl (map (fun m => role m +:+ ": " +:+ py_str (content m))
                           (current_chat st ++
                            [ {| role := "user"; content := PStr user_input |} ])) ->
       script_run now (ChatSend user_input post) st
       = ({| page := page st;
             tool_history := tool_history st;
             chat_history := chat_history st;
             current_chat :=
               current_chat st ++
               [ {| role := "user"; content := PStr user_input |};
                 {| role := "assistant"; content := safe_groq post prompt |} ];
             selected_item := selected_item st |}, Rerun)).
Proof.
  intros Hfail.
  destruct (safe_groq_failure post prompt Hfail) as [Herr [s Hs]].
  split; [exact Herr|]. split; [eauto|].
  intros now st saved. subst saved. cbv beta.
  split; [|split; [|split; [|split]]].
  - intros Hpage product audience Hprompt.
    rewrite script_run_on_page by (rewrite ?Hpage; reflexivity).
    destruct (router_on_page now (CampaignGenerate product audience post) st)
      as (-> & _); [|exact Hpage].
    unfold campaign_page. cbv zeta. rewrite <- Hprompt, Hs. reflexivity.
  - intros Hpage product persona Hprompt.
    rewrite script_run_on_page by (rewrite ?Hpage; reflexivity).
    destruct (router_on_page now (SalesGenerate product persona post) st)
      as (_ & -> & _); [|exact Hpage].
    unfold sales_page. cbv zeta. rewrite <- Hprompt, Hs. reflexivity.
  - intros Hpage content Hprompt.
    rewrite script_run_on_page by (rewrite ?Hpage; reflexivity).
    destruct (router_on_page now (SummaryGenerate content post) st)
      as (_ & _ & -> & _); [|exact Hpage].
    unfold summary_page. cbv zeta. rewrite <- Hprompt, Hs. reflexivity.
  - intros Hpage query Hprompt.
    rewrite script_run_on_page by (rewrite ?Hpage; reflexivity).
    destruct (router_on_page now (ResearchSearch query post) st)
      as (_ & _ & _ & -> & _); [|exact Hpage].
    unfold research_page. cbv zeta. rewrite <- Hprompt, Hs. reflexivity.
  - intros Hpage user_input Hne Hprompt.
    rewrite script_run_on_page by (rewrite ?Hpage; reflexivity).
    destruct (router_on_page now (ChatSend user_input post) st)
      as (_ & _ & _ & _ & ->); [|exact Hpage].
    cbn [chat_page]. unfold chat_send. rewrite (nonempty_true _ Hne). cbv zeta.
    cbn [current_chat set_current_chat]. rewrite <- Hprompt.
    now rewrite <- app_assoc.
Qed.

End completion_boundary.

(** ** Lead scoring *)

Section lead_scoring.
Context `{Runtime}.

Lemma hf_lead_score_text (post : network) (description text : string) :
  groq_generate post (lead_prompt description) = PStr text ->
  hf_lead_score post description =
  Return (if str_contains "High" text then LeadScore 90 "High Intent"
          else if str_contains "Medium" text then LeadScore 65 "Medium Intent"
          else LeadScore 30 "Low Intent").
Proof.
  intros Hg. unfold hf_lead_score. rewrite Hg. cbn [contains bind].
  destruct (str_contains "High" text); [reflexivity|].
  destruct (str_contains "Medium" text); reflexivity.
Qed.

(** C3. When the completion comes back as text, the classifier answers
    {90, High Intent} if the text contains "High", {65, Medium Intent} if it
    contains "Medium" and not "High", and {30, Low Intent} if it contains
    neither; it raises in none of the cases, and two calls that see the same
    text give the same answer. *)
Theorem intent_classifier_mapping (post : network) (description text : string) :
  groq_generate post (lead_prompt description) = PStr text ->
  (occurs "High" text ->
   hf_lead_score post description = Return (LeadScore 90 "High Intent")) /\
  (occurs "Medium" text -> ~ occurs "High" text ->
   hf_lead_score post description = Return (LeadScore 65 "Medium Intent")) /\
  (~ occurs "High" text -> ~ occurs "Medium" text ->
   hf_lead_score post description = Return (LeadScore 30 "Low Intent")) /\
  (exists r, hf_lead_score post description = Return r) /\
  (forall post' description',
     groq_generate post' (lead_prompt description') = PStr text ->
     hf_lead_score post' description' = hf_lead_score post description).
Proof.
  intros Hg. rewrite (hf_lead_score_text _ _ _ Hg).
  repeat split.
  - intros Hh. apply str_contains_spec in Hh. now rewrite Hh.
  - intros Hm Hh. apply str_contains_spec in Hm. apply str_contains_false in Hh.
    now rewrite Hh, Hm.
  - intros Hh Hm. apply str_contains_false in Hh. apply str_contains_false in Hm.
    now rewrite Hh, Hm.
  - eauto.
  - intros post' description' Hg'. now rewrite (hf_lead_score_text _ _ _ Hg').
Qed.

Lemma hf_lead_score_not_iterable (post : network) (description : string) :
  not_iterable (groq_generate post (lead_prompt description)) ->
  hf_lead_score post description = Raise TypeError.
Proof.
  unfold hf_lead_score.
  destruct (groq_generate post (lead_prompt description)); cbn; intros Hn;
    solve [reflexivity | destruct Hn].
Qed.

Lemma hf_lead_score_iterable (post : network) (description : string) :
  ~ not_iterable (groq_generate post (lead_prompt description)) ->
  exists r, hf_lead_score post description = Return r /\
            In (score r) [90; 65; 30]%Z.
Proof.
  unfold hf_lead_score.
  destruct (groq_generate post (lead_prompt description)) as [| | |s|items|entries];
    cbn [not_iterable]; intros Hn; try (now destruct Hn); cbn [contains bind].
  - destruct (str_contains "High" s); [eexists; split; [reflexivity|cbn; auto]|].
    destruct (str_contains "Medium" s); eexists; (split; [reflexivity|cbn; auto]).
  - destruct (existsb (is_str "High") items); [eexists; split; [reflexivity|cbn; auto]|].
    destruct (existsb (is_str "Medium") items); eexists; (split; [reflexivity|cbn; auto]).
  - destruct (dict_get "High" entries); [eexists; split; [reflexivity|cbn; auto]|].
    destruct (dict_get "Medium" entries); eexists; (split; [reflexivity|cbn; auto]).
Qed.

Lemma not_iterable_dec (v : pyval) : {not_iterable v} + {~ not_iterable v}.
Proof. destruct v; cbn; auto. Qed.

(** C10, as the code has it. [safe_hf] raises for no description and its
    score is one of 90, 65, 30 and 0. The score is one of 90, 65, 30 exactly
    when the completion call returns text, a list or a dict. When it returns
    [None], a boolean or a number, which it does only for a completion
    whose content is such a value, [hf_lead_score] raises [TypeError] and
    the fallback of [safe_hf] answers with score 0 and the error text. *)
Theorem lead_scoring_scores (post : network) (description : string) :
  let completion := groq_generate post (lead_prompt description) in
  In (score (safe_hf post description)) [90; 65; 30; 0]%Z /\
  (In (score (safe_hf post description)) [90; 65; 30]%Z <->
   ~ not_iterable completion) /\
  (not_iterable completion <->
   hf_lead_score post description = Raise TypeError /\
   safe_hf post description = LeadScore 0 ("Error: " +:+ exn_str TypeError)) /\
  (not_iterable completion ->
   exists payload,
     post (lead_prompt description) = Return (Response (Return payload)) /\
     completion_content payload completion).
Proof.
  intros completion. subst completion.
  destruct (not_iterable_dec (groq_generate post (lead_prompt description)))
    as [Hn|Hi].
  - pose proof (hf_lead_score_not_iterable _ _ Hn) as Hr.
    assert (Hs : safe_hf post description = LeadScore 0 ("Error: " +:+ exn_str TypeError))
      by (unfold safe_hf; now rewrite Hr).
    rewrite Hs. cbn [score]. split; [cbn; auto|]. split; [|split].
    + split; [|now intros Hc].
      intros [Hc|[Hc|[Hc|[]]]]; discriminate.
    + split; auto.
    + intros _.
      destruct (groq_generate_not_text post (lead_prompt description))
        as [[s Hs']|Hp]; [|exact Hp].
      rewrite Hs' in Hn. destruct Hn.
  - destruct (hf_lead_score_iterable _ _ Hi) as (r & Hr & Hin).
    assert (Hs : safe_hf post description = r)
      by (unfold safe_hf; now rewrite Hr).
    rewrite Hs, Hr. split; [cbn in Hin |- *; tauto|]. split; [|split].
    + split; auto.
    + split; [now intros Hn|]. intros [Hc _]. discriminate.
    + now intros Hn.
Qed.

End lead_scoring.

(** ** Navigation *)

Lemma valid_page_spec (p : string) : valid_page p = true <-> In p VALID_PAGES.
Proof.
  unfold valid_page. rewrite existsb_exists. split.
  - intros (q & Hin & Heq). apply String.eqb_eq in Heq. now subst.
  - intros Hin. exists p. split; [exact Hin | apply String.eqb_refl].
Qed.

Lemma valid_page_false (p : string) : valid_page p = false <-> ~ In p VALID_PAGES.
Proof.
  rewrite <- valid_page_spec. destruct (valid_page p); split; intros; congruence.
Qed.

Lemma go_invalid (target : string) (keep : bool) (st : State) :
  ~ In target VALID_PAGES -> go target keep st = (st, Continue).
Proof. intros Hn. apply valid_page_false in Hn. unfold go. now rewrite Hn. Qed.

Lemma go_valid (target : string) (keep : bool) (st : State) :
  In target VALID_PAGES ->
  go target keep st =
  (if keep then set_page target st else set_selected_item None (set_page target st),
   Rerun).
Proof.
  intros Hv. apply valid_page_spec in Hv. unfold go. rewrite Hv. now destruct keep.
Qed.

Lemma go_all_invalid (calls : list (string * bool)) (st : State) :
  (forall c, In c calls -> ~ In (fst c) VALID_PAGES) -> go_all calls st = st.
Proof.
  unfold go_all. revert st. induction calls as [|c calls IH]; intros st Hall.
  - reflexivity.
  - cbn [fold_left]. rewrite go_invalid by (apply Hall; now left).
    apply IH. intros c' Hc'. apply Hall. now right.
Qed.

(** C2. If every target of a sequence of [go] calls is outside
    [VALID_PAGES], then after the whole sequence, and after each of its
    initial parts, the session is as it was: [page] and [selected_item] did
    not change, and each call returned normally, without asking for a rerun
    and without raising. A call with a target in [VALID_PAGES] sets [page]
    to that target. *)
Theorem go_invalid_targets_noop (calls : list (string * bool)) (st : State) :
  (forall c, In c calls -> ~ In (fst c) VALID_PAGES) ->
  go_all calls st = st /\
  (forall n, page (go_all (firstn n calls) st) = page st /\
             selected_item (go_all (firstn n calls) st) = selected_item st) /\
  (forall c s, In c calls -> go (fst c) (snd c) s = (s, Continue)) /\
  (forall target keep s,
     In target VALID_PAGES -> page (fst (go target keep s)) = target).
Proof.
  intros Hall. split; [now apply go_all_invalid|]. split; [|split].
  - intros n. rewrite go_all_invalid; [auto|].
    intros c Hc. apply Hall. rewrite <- (firstn_skipn n calls).
    apply in_or_app. now left.
  - intros c s Hc. apply go_invalid. now apply Hall.
  - intros target keep s Hv. rewrite go_valid by exact Hv. now destruct keep.
Qed.

(** C5. Selecting a history entry for a page of [VALID_PAGES] stores the
    entry in [selected_item] and moves to the page with the entry still
    selected. From there a [go] to a page of [VALID_PAGES] without [keep]
    clears [selected_item], and a [go] with [keep] leaves it as it is. *)
Theorem select_history_item_selection (i : item) (target : string) (st : State) :
  In target VALID_PAGES ->
  let st1 := fst (select_history_item i target st) in
  selected_item st1 = Some i /\
  page st1 = target /\
  snd (select_history_item i target st) = Rerun /\
  (forall next, In next VALID_PAGES ->
     selected_item (fst (go next false st1)) = None /\
     page (fst (go next false st1)) = next) /\
  (forall next, selected_item (fst (go next true st1)) = Some i).
Proof.
  intros Hv st1. subst st1. unfold select_history_item.
  rewrite (go_valid _ true _ Hv). cbn [fst snd].
  split; [reflexivity|]. split; [reflexivity|]. split; [reflexivity|]. split.
  - intros next Hnext. now rewrite (go_valid _ false _ Hnext).
  - intros next. unfold go. destruct (valid_page next); reflexivity.
Qed.

(** The sidebar buttons are instances of [select_history_item]: the button
    number [idx] of either list, counted from the most recent entry. *)
Lemma sidebar_tool_button (idx : nat) (r : tool.t) (st : State) :
  nth_error (rev (tool_history st)) idx = Some r ->
  sidebar (SidebarTool idx) st = select_history_item (ToolItem r) "History" st.
Proof.
  intros Hl. cbn [sidebar]. now rewrite Hl.
Qed.

Lemma sidebar_chat_button (idx : nat) (c : chat.t) (st : State) :
  nth_error (rev (chat_history st)) idx = Some c ->
  sidebar (SidebarChat idx) st = select_history_item (ChatItem c) "ChatHistory" st.
Proof.
  intros Hl. cbn [sidebar]. now rewrite Hl.
Qed.

(** ** Saving the chat *)

Lemma save_chat_history_nonempty (now : datetime) (st : State) :
  current_chat st <> [] ->
  save_chat_history now st = reset_current_chat (commit_current_chat now st) /\
  save_chat_history_states now st =
  [st; commit_current_chat now st; reset_current_chat (commit_current_chat now st)].
Proof.
  unfold save_chat_history, save_chat_history_states.
  destruct (current_chat st); [congruence | auto].
Qed.

Lemma script_run_chat_save (R : Runtime) (now : datetime) (st : State) :
  page st = "Chat" ->
  script_run now ChatSave st = (save_chat_history now st, Continue).
Proof.
  intros Hpage. unfold script_run.
  rewrite session_init_valid by (rewrite Hpage; reflexivity).
  cbn [sidebar]. unfold router. rewrite Hpage. reflexivity.
Qed.

(** C1. With a non-empty transcript, [save_chat_history] leaves
    [chat_history] one record longer, the new record being last and holding
    the whole transcript as it was at the call, and leaves [current_chat]
    empty; nothing else in the session changes. In every state the session
    goes through during the call, [chat_history] is either as before or
    already holds the whole record, and [current_chat] is either the whole
    transcript or empty. Pressing "Save Chat" on the chat page does exactly
    this. *)
Theorem save_chat_history_commit (R : Runtime) (now : datetime) (st : State) :
  current_chat st <> [] ->
  let st' := save_chat_history now st in
  chat_history st' = chat_history st ++ [chat_record now (current_chat st)] /\
  length (chat_history st') = S (length (chat_history st)) /\
  current_chat st' = [] /\
  tool_history st' = tool_history st /\
  page st' = page st /\
  selected_item st' = selected_item st /\
  List.last (save_chat_history_states now st) st = st' /\
  (forall s, In s (save_chat_history_states now st) ->
     (chat_history s = chat_history st \/
      chat_history s = chat_history st ++ [chat_record now (current_chat st)]) /\
     (current_chat s = current_chat st \/ current_chat s = [])) /\
  (page st = "Chat" -> script_run now ChatSave st = (st', Continue)).
Proof.
  intros Hne st'. subst st'.
  destruct (save_chat_history_nonempty now st Hne) as [-> ->].
  cbn [reset_current_chat commit_current_chat set_current_chat append_chat_history
       chat_history current_chat tool_history page selected_item List.last].
  repeat (split; [reflexivity|]).
  split; [rewrite length_app; cbn; lia|].
  repeat (split; [reflexivity|]).
  split.
  - intros s [<-|[<-|[<-|[]]]]; cbn; auto.
  - intros Hpage. rewrite (script_run_chat_save R now st Hpage).
    now destruct (save_chat_history_nonempty now st Hne) as [-> _].
Qed.

(** C6. With an empty transcript, [save_chat_history] returns the session
    unchanged: no record is added to [chat_history], [current_chat] stays
    empty, no intermediate state exists, and the run of the script that
    handles "Save Chat" ends normally. *)
Theorem save_chat_history_empty (R : Runtime) (now : datetime) (st : State) :
  current_chat st = [] ->
  save_chat_history now st = st /\
  chat_history (save_chat_history now st) = chat_history st /\
  current_chat (save_chat_history now st) = [] /\
  save_chat_history_states now st = [st] /\
  (page st = "Chat" -> script_run now ChatSave st = (st, Continue)).
Proof.
  intros Hempty.
  assert (Hsave : save_chat_history now st = st)
    by (unfold save_chat_history; now rewrite Hempty).
  rewrite Hsave. repeat split; auto.
  - unfold save_chat_history_states. now rewrite Hempty.
  - intros Hpage. now rewrite (script_run_chat_save R now st Hpage), Hsave.
Qed.

(** ** Sending a chat message *)

Section chat_send_properties.
Context `{Runtime}.

Lemma user_messages_app (a b : list chat_message) :
  user_messages (a ++ b) = user_messages a + user_messages b.
Proof. unfold user_messages. now rewrite List.filter_app, length_app. Qed.

Lemma nonempty_spec (s : string) : nonempty s = true <-> s <> "".
Proof. destruct s; cbn; split; congruence. Qed.

(** C8, as the code has it. The "Send" handler does nothing when the
    message is the empty string. For every other message, whitespace-only
    ones included, it appends to [current_chat] exactly one message of role
    [user] carrying the text, followed by the reply of the completion
    service as a message of role [assistant], and changes nothing else. *)
Theorem chat_send_appends (user_input : string) (post : network) (st : State) :
  (user_input = "" -> chat_send user_input post st = (st, Continue)) /\
  (user_input <> "" ->
   let st' := fst (chat_send user_input post st) in
   (exists response,
      current_chat st' =
      current_chat st ++ [ {| role := "user"; content := PStr user_input |};
                           {| role := "assistant"; content := response |} ]) /\
   user_messages (current_chat st') = S (user_messages (current_chat st)) /\
   length (current_chat st') = 2 + length (current_chat st) /\
   tool_history st' = tool_history st /\
   chat_history st' = chat_history st /\
   page st' = page st /\
   selected_item st' = selected_item st).
Proof.
  split.
  - intros ->. reflexivity.
  - intros Hne st'. subst st'. unfold chat_send.
    apply nonempty_spec in Hne. rewrite Hne.
    cbn [fst set_current_chat current_chat tool_history chat_history page selected_item].
    rewrite <- app_assoc. cbn [app].
    split; [eexists; reflexivity|].
    split; [rewrite user_messages_app; cbn; lia|].
    split; [rewrite length_app; cbn; lia|].
    auto.
Qed.

End chat_send_properties.

(** ** Monthly activity *)

(** C4. For all histories and every month, an entry is in [monthly_usage]
    exactly when it is a record of [tool_history] or of [chat_history] whose
    [month] field equals the given month. *)
Theorem monthly_usage_exact (tool_data : list tool.t) (chat_data : list chat.t)
    (current_month : string) (i : item) :
  In i (monthly_usage tool_data chat_data current_month) <->
  ((exists r, i = ToolItem r /\ In r tool_data) \/
   (exists c, i = ChatItem c /\ In c chat_data)) /\
  item_month i = current_month.
Proof.
  unfold monthly_usage. rewrite in_app_iff, !in_map_iff. split.
  - intros [(r & <- & Hin)|(c & <- & Hin)];
      apply List.filter_In in Hin as [Hin Hm]; apply String.eqb_eq in Hm;
      (split; [|exact Hm]); eauto.
  - intros [[(r & -> & Hin)|(c & -> & Hin)] Hm]; [left; exists r|right; exists c];
      (split; [reflexivity|]); apply List.filter_In;
      (split; [exact Hin|]); now apply String.eqb_eq.
Qed.

(** The [month] field of a record is the year and month of the clock
    reading it was saved at, which is also how its [date] field starts. *)
Lemma strftime_Ym_of_date (now : datetime) :
  strftime_Ym now = String.substring 0 7 (strftime_Ymd now).
Proof. reflexivity. Qed.

Lemma save_tool_history_month (now : datetime) (feature user_input : string)
    (output : pyval) (st : State) :
  exists r, tool_history (save_tool_history now feature user_input output st)
            = tool_history st ++ [r] /\
            tool.month r = strftime_Ym now /\
            tool.month r = String.substring 0 7 (tool.date r).
Proof. eexists. split; [reflexivity|]. split; reflexivity. Qed.

(** The scenario of the specification: a tool record of 2 March 2024 and a
    chat record of 1 April 2024; March selects the tool record alone. *)
Example monthly_usage_march :
  let march := {| year := 2024; month := 3; day := 2; hour := 9; minute := 5; second := 0 |} in
  let april := {| year := 2024; month := 4; day := 1; hour := 9; minute := 5; second := 0 |} in
  let chatting :=
    set_current_chat [ {| role := "user"; content := PStr "hello" |} ] initial_state in
  let st := save_chat_history april
              (save_tool_history march "Summary" "notes" (PStr "summary") chatting) in
  map tool.date (tool_history st) = ["2024-03-02"] /\
  map chat.date (chat_history st) = ["2024-04-01"] /\
  monthly_usage (tool_history st) (chat_history st) "2024-03"
  = map ToolItem (tool_history st).
Proof. cbv. auto. Qed.

(** ** The histories only grow *)

Section append_only.
Context `{Runtime}.

Lemma extends_refl (st : State) : extends st st.
Proof. split; reflexivity. Qed.

Lemma extends_trans (a b c : State) : extends a b -> extends b c -> extends a c.
Proof. intros [Ht Hc] [Ht' Hc']. split; etransitivity; eassumption. Qed.

Lemma extends_same (st st' : State) :
  tool_history st' = tool_history st ->
  chat_history st' = chat_history st ->
  extends st st'.
Proof. intros Ht Hc. split; [rewrite Ht | rewrite Hc]; reflexivity. Qed.

Lemma go_extends (target : string) (keep : bool) (st : State) :
  extends st (fst (go target keep st)).
Proof.
  unfold go. destruct (valid_page target), keep; apply extends_same; reflexivity.
Qed.

Lemma session_init_extends (st : State) : extends st (session_init st).
Proof.
  unfold session_init. destruct (valid_page (page st));
    apply extends_same; reflexivity.
Qed.

Lemma save_tool_history_extends (now : datetime) (feature user_input : string)
    (output : pyval) (st : State) :
  extends st (save_tool_history now feature user_input output st).
Proof. split; cbn; [apply prefix_app_r|]; reflexivity. Qed.

Lemma save_chat_history_extends (now : datetime) (st : State) :
  extends st (save_chat_history now st).
Proof.
  unfold save_chat_history. destruct (current_chat st);
    [apply extends_refl|]. split; cbn; [|apply prefix_app_r]; reflexivity.
Qed.

Lemma chat_send_extends (user_input : string) (post : network) (st : State) :
  extends st (fst (chat_send user_input post st)).
Proof.
  unfold chat_send. destruct (nonempty user_input);
    apply extends_same; reflexivity.
Qed.

Lemma select_history_item_extends (i : item) (target : string) (st : State) :
  extends st (fst (select_history_item i target st)).
Proof.
  unfold select_history_item.
  apply extends_trans with (set_selected_item (Some i) st);
    [apply extends_same; reflexivity | apply go_extends].
Qed.

Lemma sidebar_extends (a : action) (st : State) : extends st (fst (sidebar a st)).
Proof.
  destruct a; cbn [sidebar]; try apply extends_refl.
  - destruct (nth_error nav_items i) as [[label target]|];
      [apply go_extends | apply extends_refl].
  - destruct (nth_error (rev (tool_history st)) idx);
      [apply select_history_item_extends | apply extends_refl].
  - destruct (nth_error (rev (chat_history st)) idx);
      [apply select_history_item_extends | apply extends_refl].
Qed.

Lemma router_extends (now : datetime) (a : action) (st : State) :
  extends st (fst (router now a st)).
Proof.
  unfold router.
  repeat match goal with
         | |- context [if String.eqb ?p ?q then _ else _] =>
             destruct (String.eqb p q)
         end;
    try apply extends_refl.
  - unfold history_page. destruct (selected_item st) as [[r|c]|];
      [destruct (download_output (tool.feature r) (tool.output r)); [destruct a|]
      | |]; first [apply extends_refl | apply go_extends].
  - unfold chat_history_page. destruct (selected_item st) as [[r|c]|];
      [|destruct a|]; first [apply extends_refl | apply go_extends].
  - destruct a; cbn [campaign_page]; cbv zeta;
      try match goal with
          | |- context [download_output ?t ?c] => destruct (download_output t c)
          end; first [apply extends_refl | apply save_tool_history_extends].
  - destruct a; cbn [sales_page]; cbv zeta;
      try match goal with
          | |- context [download_output ?t ?c] => destruct (download_output t c)
          end; first [apply extends_refl | apply save_tool_history_extends].
  - destruct a; cbn [lead_page]; cbv zeta;
      first [apply extends_refl | apply save_tool_history_extends].
  - destruct a; cbn [summary_page]; cbv zeta;
      try match goal with
          | |- context [download_output ?t ?c] => destruct (download_output t c)
          end; first [apply extends_refl | apply save_tool_history_extends].
  - destruct a; cbn [research_page]; cbv zeta;
      try match goal with
          | |- context [download_output ?t ?c] => destruct (download_output t c)
          end; first [apply extends_refl | apply save_tool_history_extends].
  - destruct a; cbn [chat_page fst];
      first [apply chat_send_extends | apply save_chat_history_extends
            | apply extends_refl].
Qed.

Lemma script_run_extends (now : datetime) (a : action) (st : State) :
  extends st (fst (script_run now a st)).
Proof.
  unfold script_run.
  apply extends_trans with (session_init st); [apply session_init_extends|].
  pose proof (sidebar_extends a (session_init st)) as Hs.
  destruct (sidebar a (session_init st)) as [st1 [| |e]]; cbn [fst] in *;
    try exact Hs.
  apply extends_trans with st1; [exact Hs | apply router_extends].
Qed.

Lemma run_session_extends (runs : list (datetime * action)) (st : State) :
  extends st (run_session runs st).
Proof.
  unfold run_session. revert st. induction runs as [|r runs IH]; intros st.
  - apply extends_refl.
  - cbn [fold_left]. eapply extends_trans; [apply script_run_extends | apply IH].
Qed.

Lemma prefix_nth_error {A} (l l' : list A) (i : nat) (x : A) :
  l `prefix_of` l' -> nth_error l i = Some x -> nth_error l' i = Some x.
Proof.
  intros [k ->] Hx. rewrite nth_error_app1; [exact Hx|].
  apply nth_error_Some. congruence.
Qed.

(** C9. Whatever runs of the script a session goes through, whatever the
    clock readings, the user actions and the answers of the completion
    service, the [tool_history] and [chat_history] it started with are
    initial segments of those it ends with, and every record keeps its
    position and its contents. The same holds for each operation on its
    own: [go], [save_tool_history], the "Send" handler and
    [save_chat_history]. *)
Theorem histories_append_only (runs : list (datetime * action)) (st : State) :
  let st' := run_session runs st in
  tool_history st `prefix_of` tool_history st' /\
  chat_history st `prefix_of` chat_history st' /\
  (forall i r, nth_error (tool_history st) i = Some r ->
               nth_error (tool_history st') i = Some r) /\
  (forall i c, nth_error (chat_history st) i = Some c ->
               nth_error (chat_history st') i = Some c) /\
  (forall now a, extends st (fst (script_run now a st))) /\
  (forall target keep, extends st (fst (go target keep st))) /\
  (forall now feature user_input output,
     extends st (save_tool_history now feature user_input output st)) /\
  (forall user_input post, extends st (fst (chat_send user_input post st))) /\
  (forall now, extends st (save_chat_history now st)).
Proof.
  intros st'. subst st'.
  destruct (run_session_extends runs st) as [Ht Hc].
  split; [exact Ht|]. split; [exact Hc|].
  split; [intros i r; now apply prefix_nth_error|].
  split; [intros i c; now apply prefix_nth_error|].
  split; [intros; apply script_run_extends|].
  split; [intros; apply go_extends|].
  split; [intros; apply save_tool_history_extends|].
  split; [intros; apply chat_send_extends|].
  intros; apply save_chat_history_extends.
Qed.

End append_only.

(** ** Instances on concrete sessions *)

Section examples.
Local Existing Instance example_runtime.

(** The end-to-end scenario: open the chat page, send "hello" while the
    service times out, save. One record of two messages, empty transcript,
    no run of the script dies. *)
Example failed_exchange_is_saved :
  let runs := [ (sample_time, SidebarNav 6);
                (sample_time, ChatSend "hello" timed_out);
                (sample_time, Idle);
                (sample_time, ChatSave) ] in
  run_session runs initial_state =
  {| page := "Chat";
     tool_history := [];
     chat_history := [chat_record sample_time (current_chat sample_chatting)];
     current_chat := [];
     selected_item := None |}.
Proof. reflexivity. Qed.

Lemma save_chat_history_commit_witness :
  current_chat sample_chatting <> [] /\
  current_chat (save_chat_history sample_time sample_chatting) = [] /\
  chat_history (save_chat_history sample_time sample_chatting) =
  [chat_record sample_time (current_chat sample_chatting)].
Proof.
  assert (Hne : current_chat sample_chatting <> []) by discriminate.
  split; [exact Hne|].
  destruct (save_chat_history_commit example_runtime sample_time sample_chatting Hne)
    as (Hh & _ & Hc & _).
  split; [exact Hc | exact Hh].
Defined.

Lemma save_chat_history_empty_witness :
  current_chat initial_state = [] /\
  save_chat_history sample_time initial_state = initial_state.
Proof.
  split; [reflexivity|].
  exact (proj1 (save_chat_history_empty example_runtime sample_time initial_state eq_refl)).
Defined.

Lemma unknown_targets_invalid :
  forall c, In c unknown_targets -> ~ In (fst c) VALID_PAGES.
Proof.
  intros c [<-|[<-|[<-|[]]]]; apply valid_page_false; reflexivity.
Defined.

Lemma go_invalid_targets_noop_witness :
  (forall c, In c unknown_targets -> ~ In (fst c) VALID_PAGES) /\
  go_all unknown_targets sample_with_history = sample_with_history.
Proof.
  split; [exact unknown_targets_invalid|].
  exact (proj1 (go_invalid_targets_noop unknown_targets sample_with_history
                  unknown_targets_invalid)).
Defined.

Lemma history_is_valid_page : In "History" VALID_PAGES.
Proof. apply valid_page_spec. reflexivity. Defined.

Lemma select_history_item_selection_witness :
  In "History" VALID_PAGES /\
  selected_item (fst (select_history_item (ToolItem sample_record) "History"
                        sample_with_history))
  = Some (ToolItem sample_record).
Proof.
  split; [exact history_is_valid_page|].
  exact (proj1 (select_history_item_selection (ToolItem sample_record) "History"
                  sample_with_history history_is_valid_page)).
Defined.

Lemma intent_classifier_mapping_witness :
  groq_generate (reply_with (PStr "Medium Intent")) (lead_prompt "asked for a quote")
  = PStr "Medium Intent" /\
  exists r, hf_lead_score (reply_with (PStr "Medium Intent")) "asked for a quote" = Return r.
Proof.
  split; [reflexivity|].
  exact (proj1 (proj2 (proj2 (proj2
    (intent_classifier_mapping (reply_with (PStr "Medium Intent"))
       "asked for a quote" "Medium Intent" eq_refl))))).
Defined.

Lemma timed_out_fails : service_failure timed_out "Summarize: the quarter".
Proof.
  apply request_raises with (Raised "ReadTimeout" "timeout"). reflexivity.
Defined.

Lemma service_failure_becomes_text_witness :
  service_failure timed_out "Summarize: the quarter" /\
  safe_groq timed_out "Summarize: the quarter" = PStr "Exception occurred: timeout" /\
  script_run sample_time (SummaryGenerate "the quarter" timed_out) sample_with_history =
  ({| page := "Summary";
      tool_history :=
        [ sample_record;
          {| tool.feature := "Summary";
             tool.input := "the quarter";
             tool.output := PStr "Exception occurred: timeout";
             tool.date := "2024-03-02";
             tool.month := "2024-03";
             tool.time := "09:05:00" |} ];
      chat_history := [];
      current_chat := [];
      selected_item := None |}, Continue).
Proof.
  split; [exact timed_out_fails|]. split; [reflexivity|].
  destruct (service_failure_becomes_text timed_out _ timed_out_fails)
    as (_ & _ & Hpages).
  destruct (Hpages sample_time sample_with_history) as (_ & _ & Hsummary & _).
  exact (Hsummary eq_refl "the quarter" eq_refl).
Defined.

(** C7 as stated fails: a reply of completion shape whose content is
    [null] is a malformed payload that is not turned into an error text.
    [safe_groq] returns [None]; on the Campaign page the download button
    raises on it, the run dies there and nothing is saved. *)
Lemma null_content_escapes :
  safe_groq (reply_with PNone) "Create marketing campaign for tea targeting students"
  = PNone /\
  (forall s,
     safe_groq (reply_with PNone) "Create marketing campaign for tea targeting students"
     <> PStr s) /\
  script_run sample_time (CampaignGenerate "tea" "students" (reply_with PNone))
    sample_on_campaign
  = (sample_on_campaign, Uncaught download_error).
Proof. split; [reflexivity|]. split; [discriminate | reflexivity]. Qed.

Lemma chat_send_appends_witness :
  " " <> "" /\
  user_messages (current_chat (fst (chat_send " " timed_out initial_state))) = 1.
Proof.
  assert (Hne : " " <> "") by discriminate.
  split; [exact Hne|].
  exact (proj1 (proj2 (proj2 (chat_send_appends " " timed_out initial_state) Hne))).
Defined.

(** C8 as stated fails: a message of one space is not ignored. *)
Lemma chat_send_blank_is_sent :
  current_chat (fst (chat_send " " timed_out initial_state)) =
  [ {| role := "user"; content := PStr " " |};
    {| role := "assistant"; content := PStr "Exception occurred: timeout" |} ] /\
  current_chat (fst (chat_send " " timed_out initial_state)) <>
  current_chat initial_state.
Proof. split; [reflexivity | discriminate]. Qed.

(** C10 as stated fails: a completion whose content is [null] makes
    [hf_lead_score] raise, and [safe_hf] answers from its fallback. *)
Lemma lead_score_fallback_reached :
  groq_generate (reply_with PNone) (lead_prompt "asked for a quote") = PNone /\
  hf_lead_score (reply_with PNone) "asked for a quote" = Raise TypeError /\
  score (safe_hf (reply_with PNone) "asked for a quote") = 0%Z /\
  ~ In (score (safe_hf (reply_with PNone) "asked for a quote")) [90; 65; 30]%Z.
Proof.
  split; [reflexivity|]. split; [reflexivity|]. split; [reflexivity|].
  cbn. intros [Hc|[Hc|[Hc|[]]]]; discriminate.
Qed.

End examples.

(** ** More on text *)

Lemma string_app_assoc (a b c : string) : (a +:+ b) +:+ c = a +:+ b +:+ c.
Proof.
  induction a as [|x a IH]; [reflexivity|].
  change (String x ((a +:+ b) +:+ c) = String x (a +:+ b +:+ c)).
  now rewrite IH.
Qed.

Lemma string_app_length (a b : string) :
  String.length (a +:+ b) = String.length a + String.length b.
Proof. induction a as [|x a IH]; simpl; [reflexivity | now f_equal]. Qed.

(** ** More on the completion boundary *)

Section completion_cases.
Context `{Runtime}.

(** X1. A completion payload yields the content of the message of its first
    choice, whatever else the payload holds: further choices, other keys,
    an ["error"] entry. *)
Theorem groq_generate_first_choice (post : network) (prompt : string)
    (payload v : pyval) :
  post prompt = Return (Response (Return payload)) ->
  completion_content payload v ->
  groq_generate post prompt = v /\ safe_groq post prompt = v.
Proof.
  intros Hp (entries & first & others & message & -> & Hc & Hm & Hv).
  assert (Hg : groq_generate post prompt = v).
  { unfold groq_generate, groq_generate_try.
    rewrite Hp. cbn [bind response_json contains getitem]. rewrite Hc.
    cbn [bind getitem0 getitem]. rewrite Hm. cbn [bind getitem]. now rewrite Hv. }
  split; [exact Hg | now rewrite safe_groq_eq].
Qed.

(** X2. A JSON object without ["choices"]: with no ["error"] either it comes
    back as the "Unexpected response" text; with an ["error"] object
    holding a ["message"] it comes back as the "Groq API Error" text of that
    message; with an ["error"] that has no ["message"], or is no object,
    the lookup raises and the text is that of the exception. *)
Theorem groq_generate_without_choices (post : network) (prompt : string)
    (entries : list (string * pyval)) :
  post prompt = Return (Response (Return (PDict entries))) ->
  dict_get "choices" entries = None ->
  groq_generate post prompt =
  match dict_get "error" entries with
  | None => PStr ("Unexpected response: " +:+ py_str (PDict entries))
  | Some (PDict error) =>
      match dict_get "message" error with
      | Some m => PStr ("Groq API Error: " +:+ py_str m)
      | None => PStr ("Exception occurred: " +:+ exn_str (KeyError (PStr "message")))
      end
  | Some _ => PStr ("Exception occurred: " +:+ exn_str TypeError)
  end.
Proof.
  intros Hp Hc. unfold groq_generate, groq_generate_try.
  rewrite Hp. cbn [bind response_json contains]. rewrite Hc. cbn [bind].
  destruct (dict_get "error" entries) as [error|] eqn:He;
    cbn [bind getitem]; rewrite ?He; cbn [bind]; [|reflexivity].
  destruct error as [| | | | |fields]; cbn [getitem bind]; try reflexivity.
  destruct (dict_get "message" fields); reflexivity.
Qed.

(** X3. A JSON object that has ["choices"] but is not a completion (the list
    is empty, a level is missing or has the wrong type) comes back as the
    text of a [KeyError], [IndexError] or [TypeError], never as the API
    error text, even if the object also has an ["error"] entry. An empty
    list of choices gives the [IndexError]. *)
Theorem groq_generate_broken_choices (post : network) (prompt : string)
    (entries : list (string * pyval)) (choices : pyval) :
  post prompt = Return (Response (Return (PDict entries))) ->
  dict_get "choices" entries = Some choices ->
  (forall v, ~ completion_content (PDict entries) v) ->
  (exists e, groq_generate post prompt = PStr ("Exception occurred: " +:+ exn_str e) /\
             forall class_name message, e <> Raised class_name message) /\
  (choices = PList [] ->
   groq_generate post prompt = PStr ("Exception occurred: " +:+ exn_str IndexError)).
Proof.
  intros Hp Hc Hno.
  assert (Hg : groq_generate post prompt =
               match (let! first := getitem0 choices in
                      let! message := getitem first "message" in
                      getitem message "content") with
               | Return v => v
               | Raise e => PStr ("Exception occurred: " +:+ exn_str e)
               end).
  { unfold groq_generate, groq_generate_try.
    rewrite Hp. cbn [bind response_json contains getitem]. now rewrite Hc. }
  rewrite Hg. split; [|intros ->; reflexivity].
  destruct choices as [| | |[|c s]|[|first others]|d]; cbn [getitem0 bind];
    try (eexists; split; [reflexivity | discriminate]).
  destruct first as [| | | | |holder]; cbn [getitem bind];
    try (eexists; split; [reflexivity | discriminate]).
  destruct (dict_get "message" holder) as [message|] eqn:Hm; cbn [bind];
    [|eexists; split; [reflexivity | discriminate]].
  destruct message as [| | | | |fields]; cbn [getitem];
    try (eexists; split; [reflexivity | discriminate]).
  destruct (dict_get "content" fields) as [v|] eqn:Hv;
    [|eexists; split; [reflexivity | discriminate]].
  destruct (Hno v). exists entries, holder, others, fields. auto.
Qed.

Lemma str_contains_exception_text (m : string) :
  str_contains "High" ("Exception occurred: " +:+ m) = str_contains "High" m /\
  str_contains "Medium" ("Exception occurred: " +:+ m) = str_contains "Medium" m.
Proof. split; reflexivity. Qed.

Lemma str_contains_api_error_text (m : string) :
  str_contains "High" ("Groq API Error: " +:+ m) = str_contains "High" m /\
  str_contains "Medium" ("Groq API Error: " +:+ m) = str_contains "Medium" m.
Proof. split; reflexivity. Qed.

Lemma classify_by_occurs (text : string) (r : lead_score) :
  r = (if str_contains "High" text then LeadScore 90 "High Intent"
       else if str_contains "Medium" text then LeadScore 65 "Medium Intent"
       else LeadScore 30 "Low Intent") ->
  (occurs "High" text -> r = LeadScore 90 "High Intent") /\
  (occurs "Medium" text -> ~ occurs "High" text -> r = LeadScore 65 "Medium Intent") /\
  (~ occurs "High" text -> ~ occurs "Medium" text -> r = LeadScore 30 "Low Intent").
Proof.
  intros ->. repeat split.
  - intros Hh. apply str_contains_spec in Hh. now rewrite Hh.
  - intros Hm Hh. apply str_contains_spec in Hm. apply str_contains_false in Hh.
    now rewrite Hh, Hm.
  - intros Hh Hm. apply str_contains_false in Hh. apply str_contains_false in Hm.
    now rewrite Hh, Hm.
Qed.

(** X4. When the request for a lead score raises (network error, timeout), the
    lead is still scored, from the text of the exception: Low Intent with
    score 30 unless that text happens to contain "High" or "Medium". The
    failure is not reported through the fallback of [safe_hf]. *)
Theorem outage_is_scored (post : network) (description : string) (e : exn) :
  post (lead_prompt description) = Raise e ->
  let r := safe_hf post description in
  (occurs "High" (exn_str e) -> r = LeadScore 90 "High Intent") /\
  (occurs "Medium" (exn_str e) -> ~ occurs "High" (exn_str e) ->
   r = LeadScore 65 "Medium Intent") /\
  (~ occurs "High" (exn_str e) -> ~ occurs "Medium" (exn_str e) ->
   r = LeadScore 30 "Low Intent").
Proof.
  intros Hp r. apply classify_by_occurs. subst r. unfold safe_hf.
  rewrite (hf_lead_score_text post description _
             (groq_generate_request_raises _ _ _ Hp)).
  now destruct (str_contains_exception_text (exn_str e)) as [-> ->].
Qed.

(** X5. When the service answers a lead-scoring request with an error object
    whose message is text, the lead is scored from that message: an error
    message containing "High" gives High Intent with score 90. *)
Theorem api_error_is_scored (post : network) (description : string)
    (entries error : list (string * pyval)) (m : string) :
  post (lead_prompt description) = Return (Response (Return (PDict entries))) ->
  dict_get "choices" entries = None ->
  dict_get "error" entries = Some (PDict error) ->
  dict_get "message" error = Some (PStr m) ->
  let r := safe_hf post description in
  (occurs "High" m -> r = LeadScore 90 "High Intent") /\
  (occurs "Medium" m -> ~ occurs "High" m -> r = LeadScore 65 "Medium Intent") /\
  (~ occurs "High" m -> ~ occurs "Medium" m -> r = LeadScore 30 "Low Intent").
Proof.
  intros Hp Hc He Hm r. apply classify_by_occurs. subst r. unfold safe_hf.
  assert (Hg : groq_generate post (lead_prompt description)
               = PStr ("Groq API Error: " +:+ m)).
  { unfold groq_generate, groq_generate_try.
    rewrite Hp. cbn [bind response_json contains]. rewrite Hc. cbn [bind].
    rewrite He. cbn [bind getitem]. rewrite He. cbn [bind getitem].
    now rewrite Hm. }
  rewrite (hf_lead_score_text post description _ Hg).
  now destruct (str_contains_api_error_text m) as [-> ->].
Qed.

(** X6. The prompt built for a lead quotes the three labels, so a reply that
    repeats the prompt, whatever the description, is scored High Intent. *)
Theorem echoed_prompt_is_high (post : network) (description reply : string) :
  groq_generate post (lead_prompt description) = PStr reply ->
  occurs (lead_prompt description) reply ->
  safe_hf post description = LeadScore 90 "High Intent".
Proof.
  intros Hg (before & after & ->). unfold safe_hf.
  rewrite (hf_lead_score_text post description _ Hg).
  assert (Hh : occurs "High" (before +:+ lead_prompt description +:+ after)).
  { unfold occurs, lead_prompt.
    exists (before +:+ nl +:+
            "    Analyze this business lead and classify the buying intent." +:+ nl +:+
            nl +:+ "    Lead:" +:+ nl +:+ "    " +:+ description +:+ nl +:+ nl +:+
            "    Classify as one of:" +:+ nl +:+ "    - ").
    exists (" Intent" +:+ nl +:+ "    - Medium Intent" +:+ nl +:+
            "    - Low Intent" +:+ nl +:+ nl +:+
            "    Respond with only one label." +:+ nl +:+ "    " +:+ after).
    rewrite !string_app_assoc. reflexivity. }
  apply str_contains_spec in Hh. now rewrite Hh.
Qed.

End completion_cases.

(** ** What a run of the script does to the session *)

Section script_run_steps.
Context `{Runtime}.

Lemma nav_target_facts (target : string) :
  In target (map snd nav_items) ->
  In target VALID_PAGES /\ target <> "History" /\ target <> "ChatHistory".
Proof.
  cbn. intros Hin.
  repeat (destruct Hin as [<-|Hin];
          [split; [apply valid_page_spec; reflexivity | split; discriminate]|]).
  destruct Hin.
Qed.

Lemma nav_button_target (i : nat) (label target : string) :
  nth_error nav_items i = Some (label, target) -> In target (map snd nav_items).
Proof.
  intros Hn. apply nth_error_In in Hn.
  change target with (snd (label, target)). now apply in_map.
Qed.

Lemma session_init_page (st : State) : In (page (session_init st)) VALID_PAGES.
Proof.
  unfold session_init. destruct (valid_page (page st)) eqn:Hv.
  - now apply valid_page_spec.
  - apply valid_page_spec. reflexivity.
Qed.

Lemma router_cases (now : datetime) (a : action) (s : State) :
  (page s = "History" /\ router now a s = history_page a s) \/
  (page s = "ChatHistory" /\ router now a s = chat_history_page a s) \/
  (page s = "Campaign" /\ router now a s = campaign_page now a s) \/
  (page s = "Sales" /\ router now a s = sales_page now a s) \/
  (page s = "Lead" /\ router now a s = lead_page now a s) \/
  (page s = "Summary" /\ router now a s = summary_page now a s) \/
  (page s = "Research" /\ router now a s = research_page now a s) \/
  (page s = "Chat" /\ router now a s = chat_page now a s) \/
  (page s <> "History" /\ page s <> "ChatHistory" /\ router now a s = (s, Continue)).
Proof.
  unfold router. cbv zeta.
  destruct (String.eqb_spec (page s) "Dashboard") as [E|_].
  { do 8 right. rewrite E. repeat split; discriminate. }
  destruct (String.eqb_spec (page s) "History") as [E|N1]; [now left|].
  destruct (String.eqb_spec (page s) "ChatHistory") as [E|N2]; [now right; left|].
  destruct (String.eqb_spec (page s) "Campaign") as [E|_]; [now do 2 right; left|].
  destruct (String.eqb_spec (page s) "Sales") as [E|_]; [now do 3 right; left|].
  destruct (String.eqb_spec (page s) "Lead") as [E|_]; [now do 4 right; left|].
  destruct (String.eqb_spec (page s) "Summary") as [E|_]; [now do 5 right; left|].
  destruct (String.eqb_spec (page s) "Research") as [E|_]; [now do 6 right; left|].
  destruct (String.eqb_spec (page s) "Chat") as [E|_]; [now do 7 right; left|].
  do 8 right. auto.
Qed.

Lemma dashboard_is_nav_target : In "Dashboard" (map snd nav_items).
Proof. cbn. auto. Qed.

Lemma chat_is_nav_target : In "Chat" (map snd nav_items).
Proof. cbn. tauto. Qed.

Lemma router_transition (now : datetime) (a : action) (s : State) :
  transition s (fst (router now a s)).
Proof.
  destruct (router_cases now a s)
    as [[E ->]|[[E ->]|[[E ->]|[[E ->]|[[E ->]|[[E ->]|[[E ->]|[[E ->]|(_ & _ & ->)]]]]]]]].
  - unfold history_page. destruct (selected_item s) as [[r|c]|];
      [destruct (download_output (tool.feature r) (tool.output r)); [destruct a|]
      | |];
      first [apply tr_none | apply tr_navigate, dashboard_is_nav_target].
  - unfold chat_history_page. destruct (selected_item s) as [[r|c]|]; [|destruct a|];
      first [apply tr_none | apply tr_navigate, chat_is_nav_target
            | apply tr_navigate, dashboard_is_nav_target].
  - destruct a; cbn [campaign_page]; cbv zeta;
      try match goal with
          | |- context [download_output ?t ?c] => destruct (download_output t c)
          end; cbn [fst]; try apply tr_none.
    apply tr_save_tool; [cbn; tauto | exact E].
  - destruct a; cbn [sales_page]; cbv zeta;
      try match goal with
          | |- context [download_output ?t ?c] => destruct (download_output t c)
          end; cbn [fst]; try apply tr_none.
    apply tr_save_tool; [cbn; tauto | exact E].
  - destruct a; cbn [lead_page fst]; try apply tr_none.
    apply tr_save_tool; [cbn; tauto | exact E].
  - destruct a; cbn [summary_page]; cbv zeta;
      try match goal with
          | |- context [download_output ?t ?c] => destruct (download_output t c)
          end; cbn [fst]; try apply tr_none.
    apply tr_save_tool; [cbn; tauto | exact E].
  - destruct a; cbn [research_page]; cbv zeta;
      try match goal with
          | |- context [download_output ?t ?c] => destruct (download_output t c)
          end; cbn [fst]; try apply tr_none.
    apply tr_save_tool; [cbn; tauto | exact E].
  - destruct a; cbn [chat_page fst]; try apply tr_none.
    + now apply tr_send.
    + now apply tr_save_chat.
  - apply tr_none.
Qed.

Lemma in_rev_nth_error {A} (l : list A) (idx : nat) (x : A) :
  nth_error (rev l) idx = Some x -> In x l.
Proof. intros Hn. apply nth_error_In in Hn. now apply in_rev. Qed.

(** The sidebar either does nothing and lets the page body run, or ends the
    run with a rerun after a navigation or a selection. *)
Lemma sidebar_cases (a : action) (s : State) :
  sidebar a s = (s, Continue) \/
  (snd (sidebar a s) = Rerun /\
   ((exists target, In target (map snd nav_items) /\
                    sidebar a s = go target false s) \/
    (exists r, In r (tool_history s) /\
               sidebar a s = select_history_item (ToolItem r) "History" s) \/
    (exists c, In c (chat_history s) /\
               sidebar a s = select_history_item (ChatItem c) "ChatHistory" s))).
Proof.
  destruct a; cbn [sidebar]; auto.
  - destruct (nth_error nav_items i) as [[label target]|] eqn:Hn; [|now left].
    right. pose proof (nav_button_target _ _ _ Hn) as Hin.
    destruct (nav_target_facts _ Hin) as (Hv & _).
    split; [now rewrite (go_valid _ false _ Hv) | eauto].
  - destruct (nth_error (rev (tool_history s)) idx) as [r|] eqn:Hn; [|now left].
    right. split.
    + unfold select_history_item. now rewrite (go_valid _ true _ history_is_valid_page).
    + right; left. exists r. split; [now apply in_rev_nth_error with idx | reflexivity].
  - destruct (nth_error (rev (chat_history s)) idx) as [c|] eqn:Hn; [|now left].
    right. split.
    + unfold select_history_item. rewrite go_valid; [reflexivity|].
      apply valid_page_spec. reflexivity.
    + right; right. exists c. split; [now apply in_rev_nth_error with idx | reflexivity].
Qed.

Lemma script_run_transition (now : datetime) (a : action) (st : State) :
  transition (session_init st) (fst (script_run now a st)).
Proof.
  unfold script_run.
  destruct (sidebar_cases a (session_init st))
    as [->|[Hr [(t & Hin & E)|[(r & Hin & E)|(c & Hin & E)]]]].
  - apply router_transition.
  - destruct (sidebar a (session_init st)) as [s1 f] eqn:Hs. cbn in Hr. subst f.
    cbn [fst]. replace s1 with (fst (go t false (session_init st))) by now rewrite <- E.
    now apply tr_navigate.
  - destruct (sidebar a (session_init st)) as [s1 f] eqn:Hs. cbn in Hr. subst f.
    cbn [fst].
    replace s1 with (fst (select_history_item (ToolItem r) "History" (session_init st)))
      by now rewrite <- E.
    now apply tr_select_tool.
  - destruct (sidebar a (session_init st)) as [s1 f] eqn:Hs. cbn in Hr. subst f.
    cbn [fst].
    replace s1 with (fst (select_history_item (ChatItem c) "ChatHistory" (session_init st)))
      by now rewrite <- E.
    now apply tr_select_chat.
Qed.

(** A property of sessions that holds at the start, survives the init
    block and every transition, holds after any sequence of runs. *)
Lemma run_session_invariant (P : State -> Prop) :
  (forall s, P s -> P (session_init s)) ->
  (forall s s', P s -> transition s s' -> P s') ->
  forall runs st, P st -> P (run_session runs st).
Proof.
  intros Hinit Hstep runs. unfold run_session.
  induction runs as [|r runs IH]; intros st Hst; [exact Hst|].
  cbn [fold_left]. apply IH.
  apply Hstep with (session_init st); [now apply Hinit|].
  apply script_run_transition.
Qed.

End script_run_steps.

(** ** Invariants of the session *)

Section session_invariants.
Context `{Runtime}.

Lemma chat_history_is_valid_page : In "ChatHistory" VALID_PAGES.
Proof. apply valid_page_spec. reflexivity. Qed.

(** Rewrites a transition into the state it leads to, case by case. *)
Ltac transition_cases Ht s :=
  let Hin := fresh "Hin" in
  let Hv := fresh "Hv" in
  let Hn1 := fresh "Hn1" in
  let Hn2 := fresh "Hn2" in
  let Hf := fresh "Hf" in
  let Hp := fresh "Hp" in
  destruct Ht as [ | target Hin | r Hin | c Hin
                 | now feature user_input output Hf Hp
                 | user_input post Hp | now Hp ];
  [ | destruct (nav_target_facts _ Hin) as (Hv & Hn1 & Hn2);
      rewrite (go_valid _ false _ Hv); cbn [fst]
    | unfold select_history_item;
      rewrite (go_valid _ true _ history_is_valid_page); cbn [fst]
    | unfold select_history_item;
      rewrite (go_valid _ true _ chat_history_is_valid_page); cbn [fst]
    | | unfold chat_send; destruct (nonempty user_input) eqn:Hne; cbn [fst]
    | unfold save_chat_history; destruct (current_chat s) eqn:Hcur ].

Lemma transition_page_valid (s s' : State) :
  In (page s) VALID_PAGES -> transition s s' -> In (page s') VALID_PAGES.
Proof.
  intros Hs Ht. transition_cases Ht s; cbn; auto.
  - exact history_is_valid_page.
  - exact chat_history_is_valid_page.
Qed.

(** X7. After every run of the script, from any session whatever, [page] is one
    of [VALID_PAGES]. *)
Theorem page_always_valid (now : datetime) (a : action) (st : State) :
  In (page (fst (script_run now a st))) VALID_PAGES.
Proof.
  apply transition_page_valid with (session_init st).
  - apply session_init_page.
  - apply script_run_transition.
Qed.

Lemma session_init_selection (st : State) :
  selected_item (session_init st) = selected_item st /\
  tool_history (session_init st) = tool_history st /\
  chat_history (session_init st) = chat_history st /\
  current_chat (session_init st) = current_chat st.
Proof. unfold session_init. destruct (valid_page (page st)); cbn; auto. Qed.

Lemma selection_matches_page_init (s : State) :
  selection_matches_page s -> selection_matches_page (session_init s).
Proof.
  intros [Ht Hc]. unfold session_init.
  destruct (valid_page (page s)) eqn:Hv; [now split|].
  apply valid_page_false in Hv.
  split; cbn; (split; [discriminate|]).
  - intros Hex. apply Ht in Hex. destruct Hv. rewrite Hex. exact history_is_valid_page.
  - intros Hex. apply Hc in Hex. destruct Hv. rewrite Hex.
    exact chat_history_is_valid_page.
Qed.

Lemma selection_matches_page_step (s s' : State) :
  selection_matches_page s -> transition s s' -> selection_matches_page s'.
Proof.
  intros [Ht Hc] Htr. transition_cases Htr s; try (split; assumption).
  - split; cbn; (split; [congruence | intros [x Hx]; discriminate]).
  - split; cbn; split; eauto; try discriminate. intros [x Hx]; discriminate.
  - split; cbn; split; eauto; try discriminate. intros [x Hx]; discriminate.
Qed.

Lemma selection_in_history_init (s : State) :
  selection_in_history s -> selection_in_history (session_init s).
Proof.
  unfold selection_in_history.
  destruct (session_init_selection s) as (-> & -> & -> & _). auto.
Qed.

Lemma selection_in_history_step (s s' : State) :
  selection_in_history s -> transition s s' -> selection_in_history s'.
Proof.
  unfold selection_in_history. intros Hs Htr.
  transition_cases Htr s; cbn; auto.
  - destruct (selected_item s) as [[x|x]|]; auto. apply in_or_app. now left.
  - destruct (selected_item s) as [[x|x]|]; auto. apply in_or_app. now left.
Qed.

Lemma detail_pages_matching (runs : list (datetime * action)) :
  selection_matches_page (run_session runs initial_state) /\
  selection_in_history (run_session runs initial_state).
Proof.
  apply (run_session_invariant
           (fun s => selection_matches_page s /\ selection_in_history s)).
  - intros s [Hm Hi]. split;
      [now apply selection_matches_page_init | now apply selection_in_history_init].
  - intros s s' [Hm Hi] Ht. split;
      [now apply selection_matches_page_step with s
      | now apply selection_in_history_step with s].
  - split; [|exact I]. split; cbn; (split; [discriminate | intros [x Hx]; discriminate]).
Qed.

(** X8. In every session reached from the initial one, the page is "History"
    exactly when a tool record is selected and "ChatHistory" exactly when a
    chat record is selected, and the selected record is an entry of the
    corresponding history. *)
Theorem detail_pages_have_their_record (runs : list (datetime * action)) :
  let st := run_session runs initial_state in
  (page st = "History" <-> exists r, selected_item st = Some (ToolItem r)) /\
  (page st = "ChatHistory" <-> exists c, selected_item st = Some (ChatItem c)) /\
  (forall r, selected_item st = Some (ToolItem r) -> In r (tool_history st)) /\
  (forall c, selected_item st = Some (ChatItem c) -> In c (chat_history st)).
Proof.
  intros st. subst st.
  destruct (detail_pages_matching runs) as [[Ht Hc] Hi].
  split; [exact Ht|]. split; [exact Hc|].
  unfold selection_in_history in Hi.
  split; intros x Hx; now rewrite Hx in Hi.
Qed.

Lemma go_flow (target : string) (keep : bool) (s : State) (e : exn) :
  snd (go target keep s) <> Uncaught e.
Proof. unfold go. destruct (valid_page target); discriminate. Qed.

Lemma download_output_flow (title : string) (content : pyval) (key : pyval)
    (s s' : State) (f : flow) :
  f <> Uncaught (KeyError key) ->
  snd (match download_output title content with
       | Raise e => (s, Uncaught e)
       | Return _ => (s', f)
       end) <> Uncaught (KeyError key).
Proof. intros Hf. destruct content; cbn; solve [exact Hf | discriminate]. Qed.

Lemma router_no_key_error (now : datetime) (a : action) (s : State) (key : pyval) :
  selection_matches_page s -> snd (router now a s) <> Uncaught (KeyError key).
Proof.
  intros [Ht Hc].
  destruct (router_cases now a s)
    as [[E ->]|[[E ->]|[[E ->]|[[E ->]|[[E ->]|[[E ->]|[[E ->]|[[E ->]|(_ & _ & ->)]]]]]]]].
  - apply Ht in E as [r Hr]. unfold history_page. rewrite Hr.
    destruct (download_output (tool.feature r) (tool.output r)) as [u|e] eqn:Hd.
    + destruct a; first [apply go_flow | discriminate].
    + destruct (tool.output r); cbn in Hd; try discriminate;
        injection Hd as <-; discriminate.
  - apply Hc in E as [c Hr]. unfold chat_history_page. rewrite Hr.
    destruct a; first [apply go_flow | discriminate].
  - destruct a; cbn [campaign_page]; cbv zeta; try discriminate.
    apply download_output_flow. discriminate.
  - destruct a; cbn [sales_page]; cbv zeta; try discriminate.
    apply download_output_flow. discriminate.
  - destruct a; cbn [lead_page]; cbv zeta; discriminate.
  - destruct a; cbn [summary_page]; cbv zeta; try discriminate.
    apply download_output_flow. discriminate.
  - destruct a; cbn [research_page]; cbv zeta; try discriminate.
    apply download_output_flow. discriminate.
  - destruct a; cbn [chat_page]; try discriminate.
    unfold chat_send. destruct (nonempty user_input); discriminate.
  - discriminate.
Qed.

(** X9. In every session reached from the initial one, no run of the script
    ends with a [KeyError]: the History page always finds the ["feature"]
    of a tool record and the ChatHistory page the ["messages"] of a chat
    record. *)
Theorem detail_pages_no_key_error (runs : list (datetime * action))
    (now : datetime) (a : action) (key : pyval) :
  snd (script_run now a (run_session runs initial_state))
  <> Uncaught (KeyError key).
Proof.
  destruct (detail_pages_matching runs) as [Hm _].
  apply selection_matches_page_init in Hm.
  unfold script_run.
  destruct (sidebar_cases a (session_init (run_session runs initial_state)))
    as [->|[Hr _]].
  - now apply router_no_key_error.
  - destruct (sidebar a (session_init (run_session runs initial_state))) as [s1 f].
    cbn in Hr. subst f. discriminate.
Qed.

End session_invariants.

(** ** What the histories hold *)

Section history_contents.
Context `{Runtime}.

Lemma stamped_strftime (now : datetime) :
  stamped (strftime_Ymd now) (strftime_Ym now) (strftime_HMS now).
Proof. repeat split. Qed.

Lemma records_ok_init (s : State) : records_ok s -> records_ok (session_init s).
Proof.
  unfold records_ok.
  destruct (session_init_selection s) as (_ & -> & -> & ->). auto.
Qed.

Lemma records_ok_step (s s' : State) :
  records_ok s -> transition s s' -> records_ok s'.
Proof.
  intros (Ht & Hc & Hx) Htr.
  destruct Htr as [ | target Hin | r Hin | c Hin
                  | now feature user_input output Hf Hp
                  | user_input post Hp | now Hp ].
  - now repeat split.
  - unfold go. destruct (valid_page target); cbn; repeat split; assumption.
  - unfold select_history_item, go. cbn. repeat split; assumption.
  - unfold select_history_item, go. cbn. repeat split; assumption.
  - split; [|now split]. cbn. apply Forall_app. split; [exact Ht|].
    constructor; [|constructor]. split; [exact Hf | apply stamped_strftime].
  - unfold chat_send. destruct (nonempty user_input) eqn:Hne;
      [|repeat split; assumption].
    split; [exact Ht|]. split; [exact Hc|]. cbn.
    rewrite <- app_assoc. cbn [app].
    apply exchanges_snoc; [exact Hx | now apply nonempty_spec].
  - unfold save_chat_history. destruct (current_chat s) as [|m chat] eqn:Hcur;
      [repeat split; try assumption; now rewrite Hcur|].
    split; [exact Ht|]. split; [|constructor]. cbn.
    apply Forall_app. split; [exact Hc|].
    constructor; [|constructor]. rewrite Hcur.
    split; [discriminate|]. split; [exact Hx | apply stamped_strftime].
Qed.

Lemma exchanges_counts (chat : list chat_message) :
  exchanges chat ->
  length chat = 2 * user_messages chat /\
  (chat <> [] -> exists reply, List.last chat {| role := ""; content := PNone |}
                               = {| role := "assistant"; content := reply |}).
Proof.
  induction 1 as [|chat text reply Hx [IHl _] Hne].
  - split; [reflexivity | congruence].
  - split.
    + rewrite length_app, user_messages_app, IHl. cbn. lia.
    + intros _. exists reply.
      change [ {| role := "user"; content := PStr text |};
               {| role := "assistant"; content := reply |} ]
        with ([ {| role := "user"; content := PStr text |} ]
              ++ [ {| role := "assistant"; content := reply |} ]).
      rewrite app_assoc. apply last_last.
Qed.

(** X10. In every session reached from the initial one, each tool record
    carries one of the five tool names as feature, each chat record holds a
    non-empty transcript, every record has a date of ten characters, a time
    of eight and a month equal to the first seven characters of its date,
    and the transcripts, saved or in progress, are made of complete
    exchanges: a non-empty user message followed by the reply. *)
Theorem reachable_records_ok (runs : list (datetime * action)) :
  let st := run_session runs initial_state in
  Forall (fun r => In (tool.feature r) tool_features /\
                   stamped (tool.date r) (tool.month r) (tool.time r))
         (tool_history st) /\
  Forall (fun c => chat.messages c <> [] /\
                   exchanges (chat.messages c) /\
                   stamped (chat.date c) (chat.month c) (chat.time c))
         (chat_history st) /\
  exchanges (current_chat st).
Proof.
  apply (run_session_invariant records_ok).
  - apply records_ok_init.
  - apply records_ok_step.
  - repeat split; constructor.
Qed.

Lemma reachable_exchanges (runs : list (datetime * action)) :
  exchanges (current_chat (run_session runs initial_state)) /\
  Forall (fun c => exchanges (chat.messages c))
         (chat_history (run_session runs initial_state)).
Proof.
  assert (Hok : records_ok (run_session runs initial_state)).
  { apply (run_session_invariant records_ok).
    - apply records_ok_init.
    - apply records_ok_step.
    - repeat split; constructor. }
  destruct Hok as (_ & Hc & Hx). split; [exact Hx|].
  eapply List.Forall_impl; [|exact Hc]. now intros c (_ & Hm & _).
Qed.

(** X11. In every session reached from the initial one, the transcript in
    progress and every saved transcript have twice as many messages as
    user messages, and a transcript that is not empty ends with a reply of
    the assistant: no user message is ever left unanswered. *)
Theorem transcripts_are_answered (runs : list (datetime * action)) :
  let st := run_session runs initial_state in
  let answered chat :=
    length chat = 2 * user_messages chat /\
    (chat <> [] -> exists reply, List.last chat {| role := ""; content := PNone |}
                                 = {| role := "assistant"; content := reply |}) in
  answered (current_chat st) /\
  Forall (fun c => answered (chat.messages c)) (chat_history st).
Proof.
  intros st answered. subst st answered.
  destruct (reachable_exchanges runs) as [Hx Hc].
  split; [now apply exchanges_counts|].
  eapply List.Forall_impl; [|exact Hc]. intros c Hm. now apply exchanges_counts.
Qed.

End history_contents.

(** ** Runs of the script *)

Section script_runs.
Context `{Runtime}.

(** X12. Pressing a sidebar navigation button, on any page and in any session,
    moves to the page of the button, clears the selection, asks for a
    rerun, and keeps both histories and the transcript in progress. *)
Theorem sidebar_navigation (now : datetime) (i : nat) (label target : string)
    (st : State) :
  nth_error nav_items i = Some (label, target) ->
  script_run now (SidebarNav i) st =
  ({| page := target;
      tool_history := tool_history st;
      chat_history := chat_history st;
      current_chat := current_chat st;
      selected_item := None |}, Rerun).
Proof.
  intros Hn. unfold script_run. cbn [sidebar]. rewrite Hn.
  destruct (nav_target_facts _ (nav_button_target _ _ _ Hn)) as (Hv & _).
  rewrite (go_valid _ false _ Hv).
  destruct (session_init_selection st) as (_ & Ht & Hc & Hx).
  unfold set_selected_item, set_page.
  cbn [page tool_history chat_history current_chat selected_item].
  now rewrite Ht, Hc, Hx.
Qed.

(** X13. The sidebar lists the tool history from the most recent record: its
    button number [idx] selects the record at position
    [length - 1 - idx] of [tool_history], shows it on the History page and
    asks for a rerun, leaving histories and transcript as they are. *)
Theorem sidebar_tool_history_button (now : datetime) (idx : nat) (st : State) :
  idx < length (tool_history st) ->
  exists r,
    nth_error (tool_history st) (length (tool_history st) - 1 - idx) = Some r /\
    script_run now (SidebarTool idx) st =
    ({| page := "History";
        tool_history := tool_history st;
        chat_history := chat_history st;
        current_chat := current_chat st;
        selected_item := Some (ToolItem r) |}, Rerun).
Proof.
  intros Hlt.
  destruct (session_init_selection st) as (_ & Ht & Hc & Hx).
  destruct (nth_error (tool_history st) (length (tool_history st) - 1 - idx))
    as [r|] eqn:Hr.
  - exists r. split; [reflexivity|].
    unfold script_run. cbn [sidebar]. rewrite Ht, nth_error_rev.
    apply Nat.ltb_lt in Hlt. rewrite Hlt.
    replace (length (tool_history st) - S idx)
      with (length (tool_history st) - 1 - idx) by lia.
    rewrite Hr. unfold select_history_item.
    rewrite (go_valid _ true _ history_is_valid_page).
    unfold set_selected_item, set_page.
    cbn [page tool_history chat_history current_chat selected_item].
    now rewrite Ht, Hc, Hx.
  - apply nth_error_None in Hr. lia.
Qed.

(** X14. The sidebar lists the chat history from the most recent record too:
    its button number [idx] selects the record at position
    [length - 1 - idx] of [chat_history], shows it on the ChatHistory page
    and asks for a rerun, leaving histories and transcript as they are. *)
Theorem sidebar_chat_history_button (now : datetime) (idx : nat) (st : State) :
  idx < length (chat_history st) ->
  exists c,
    nth_error (chat_history st) (length (chat_history st) - 1 - idx) = Some c /\
    script_run now (SidebarChat idx) st =
    ({| page := "ChatHistory";
        tool_history := tool_history st;
        chat_history := chat_history st;
        current_chat := current_chat st;
        selected_item := Some (ChatItem c) |}, Rerun).
Proof.
  intros Hlt.
  destruct (session_init_selection st) as (_ & Ht & Hc & Hx).
  destruct (nth_error (chat_history st) (length (chat_history st) - 1 - idx))
    as [c|] eqn:Hr.
  - exists c. split; [reflexivity|].
    unfold script_run. cbn [sidebar]. rewrite Hc, nth_error_rev.
    apply Nat.ltb_lt in Hlt. rewrite Hlt.
    replace (length (chat_history st) - S idx)
      with (length (chat_history st) - 1 - idx) by lia.
    rewrite Hr. unfold select_history_item.
    rewrite go_valid by (apply valid_page_spec; reflexivity).
    unfold set_selected_item, set_page.
    cbn [page tool_history chat_history current_chat selected_item].
    now rewrite Ht, Hc, Hx.
  - apply nth_error_None in Hr. lia.
Qed.

Lemma transition_one_record (s s' : State) :
  transition s s' ->
  (tool_history s' = tool_history s /\ chat_history s' = chat_history s) \/
  (exists r, tool_history s' = tool_history s ++ [r] /\
             chat_history s' = chat_history s /\
             tool.feature r = page s' /\ In (page s') tool_features) \/
  (exists c, chat_history s' = chat_history s ++ [c] /\
             tool_history s' = tool_history s /\
             chat.messages c = current_chat s /\
             current_chat s <> [] /\ current_chat s' = [] /\ page s' = "Chat").
Proof.
  intros Htr.
  destruct Htr as [ | target Hin | r Hin | c Hin
                  | now feature user_input output Hf Hp
                  | user_input post Hp | now Hp ].
  - now left.
  - left. unfold go. destruct (valid_page target); now split.
  - left. unfold select_history_item, go. cbn. now split.
  - left. unfold select_history_item, go. cbn. now split.
  - right; left. eexists. cbn. repeat split; [now rewrite Hp | now rewrite Hp].
  - left. unfold chat_send. destruct (nonempty user_input); now split.
  - unfold save_chat_history. destruct (current_chat s) eqn:Hcur; [now left|].
    right; right. eexists. cbn. rewrite Hcur. repeat split; [discriminate | exact Hp].
Qed.

(** X15. One run of the script adds at most one record to the session: either
    none, or one tool record, whose feature is the name of the tool page
    that is open, or one chat record, holding the whole transcript, saved
    from the chat page with the transcript reset. Never both. *)
Theorem one_record_per_run (now : datetime) (a : action) (st : State) :
  let st' := fst (script_run now a st) in
  (tool_history st' = tool_history st /\ chat_history st' = chat_history st) \/
  (exists r, tool_history st' = tool_history st ++ [r] /\
             chat_history st' = chat_history st /\
             tool.feature r = page st' /\ In (page st') tool_features) \/
  (exists c, chat_history st' = chat_history st ++ [c] /\
             tool_history st' = tool_history st /\
             chat.messages c = current_chat st /\
             current_chat st <> [] /\ current_chat st' = [] /\ page st' = "Chat").
Proof.
  intros st'. subst st'.
  destruct (session_init_selection st) as (_ & Ht & Hc & Hx).
  rewrite <- Ht, <- Hc, <- Hx.
  apply transition_one_record, script_run_transition.
Qed.

(** X16. Saving the chat twice in a row saves it once: the second call finds
    the transcript empty and changes nothing. *)
Theorem save_chat_history_twice (now later : datetime) (st : State) :
  save_chat_history later (save_chat_history now st) = save_chat_history now st.
Proof.
  unfold save_chat_history at 2 3. destruct (current_chat st) eqn:Hcur.
  - unfold save_chat_history. now rewrite Hcur.
  - reflexivity.
Qed.

(** X17. What scoring a lead leaves in the history: on the Lead page the run
    saves one record with feature "Lead", the description as input and a
    text as output, which is one of the three score lines or, when the
    scorer raised, the line of score 0 with the error text. *)
Theorem lead_page_output (now : datetime) (description : string) (post : network)
    (st : State) :
  page st = "Lead" ->
  exists output,
    script_run now (LeadScoreClick description post) st =
    (save_tool_history now "Lead" description (PStr output) st, Continue) /\
    In output [ "Score: 90 | Intent: High Intent";
                "Score: 65 | Intent: Medium Intent";
                "Score: 30 | Intent: Low Intent";
                "Score: 0 | Intent: Error: " +:+ exn_str TypeError ].
Proof.
  intros Hpage. eexists. split.
  - unfold script_run. rewrite session_init_valid by (rewrite Hpage; reflexivity).
    cbn [sidebar]. unfold router. rewrite Hpage. reflexivity.
  - unfold safe_hf, hf_lead_score.
    destruct (groq_generate post (lead_prompt description))
      as [| | |s|items|entries]; cbn [contains bind]; try (cbn; tauto).
    + destruct (str_contains "High" s); [cbn; tauto|].
      destruct (str_contains "Medium" s); cbn; tauto.
    + destruct (existsb (is_str "High") items); [cbn; tauto|].
      destruct (existsb (is_str "Medium") items); cbn; tauto.
    + destruct (dict_get "High" entries); [cbn; tauto|].
      destruct (dict_get "Medium" entries); cbn; tauto.
Qed.

Lemma script_run_idle (now : datetime) (s : State) :
  In (page s) VALID_PAGES -> script_run now Idle s = router now Idle s.
Proof.
  intros Hv. unfold script_run.
  rewrite session_init_valid by now apply valid_page_spec.
  reflexivity.
Qed.

Lemma router_idle (now : datetime) (s : State) :
  router now Idle s = (s, Continue) \/
  (exists e, router now Idle s = (s, Uncaught e)) \/
  router now Idle s =
  (set_selected_item None (set_page "Dashboard" s), Rerun).
Proof.
  destruct (router_cases now Idle s)
    as [[E ->]|[[E ->]|[[E ->]|[[E ->]|[[E ->]|[[E ->]|[[E ->]|[[E ->]|(_ & _ & ->)]]]]]]]];
    try (left; reflexivity).
  - unfold history_page. destruct (selected_item s) as [[r|c]|]; eauto.
    destruct (download_output (tool.feature r) (tool.output r)); eauto.
  - unfold chat_history_page. destruct (selected_item s) as [[r|c]|]; eauto.
Qed.

Lemma router_idle_clock (now later : datetime) (s : State) :
  router now Idle s = router later Idle s.
Proof.
  unfold router. cbv zeta.
  repeat match goal with
         | |- context [if String.eqb ?p ?q then _ else _] =>
             destruct (String.eqb p q)
         end; reflexivity.
Qed.

(** X18. Reruns settle: when a run of the script without any button pressed
    asks for a rerun, the rerun does not ask for another one. From any
    session, the second of two such runs never ends with [st.rerun()]. *)
Theorem idle_reruns_settle (now later : datetime) (st : State) :
  snd (script_run later Idle (fst (script_run now Idle st))) <> Rerun.
Proof.
  unfold script_run at 2. cbn [sidebar].
  pose proof (session_init_page st) as Hv.
  set (s0 := session_init st) in *.
  destruct (router_idle now s0) as [E|[[e E]|E]]; rewrite E; cbn [fst].
  - rewrite (script_run_idle later s0 Hv), (router_idle_clock later now), E.
    discriminate.
  - rewrite (script_run_idle later s0 Hv), (router_idle_clock later now), E.
    discriminate.
  - unfold script_run, session_init, router. cbn. discriminate.
Qed.

End script_runs.

(** ** The dashboard figures *)

Section dashboard_figures.
Context `{Runtime}.

Lemma monthly_usage_length (tool_data : list tool.t) (chat_data : list chat.t)
    (current_month : string) :
  length (monthly_usage tool_data chat_data current_month) =
  length (List.filter (fun item => String.eqb (tool.month item) current_month) tool_data)
  + length (List.filter (fun chat => String.eqb (chat.month chat) current_month) chat_data).
Proof. unfold monthly_usage. now rewrite length_app, !length_map. Qed.

Lemma filter_prefix_length {A} (f : A -> bool) (l l' : list A) :
  l `prefix_of` l' -> length (List.filter f l) <= length (List.filter f l').
Proof. intros [k ->]. rewrite List.filter_app, length_app. lia. Qed.

(** X19. The figures of the dashboard, for any session and month: the activity
    of the month is at most the total usage; the productivity score is
    shown exactly when something was used, lies between 5 and 100, is five
    times the usage below twenty uses and 100 from twenty uses on. *)
Theorem dashboard_metrics_bounds (st : State) (current_month : string) :
  let m := dashboard_metrics st current_month in
  total_usage m = length (tool_history st) + length (chat_history st) /\
  this_month_activity m <= total_usage m /\
  (productivity_score m = None <-> total_usage m = 0) /\
  (forall p, productivity_score m = Some p ->
     5 <= p <= 100 /\
     (total_usage m < 20 -> p = 5 * total_usage m) /\
     (20 <= total_usage m -> p = 100)).
Proof.
  intros m. subst m. unfold dashboard_metrics.
  cbn [total_usage this_month_activity productivity_score].
  split; [reflexivity|]. split.
  - rewrite monthly_usage_length.
    pose proof (List.filter_length_le
                  (fun item => String.eqb (tool.month item) current_month)
                  (tool_history st)).
    pose proof (List.filter_length_le
                  (fun chat => String.eqb (chat.month chat) current_month)
                  (chat_history st)).
    lia.
  - destruct (Nat.ltb_spec 0 (length (tool_history st) + length (chat_history st)))
      as [Hpos|Hzero].
    + split; [split; [discriminate | intros Hz; exfalso; lia]|].
      intros p Hp.
      assert (Hmin : p = Nat.min 100
                ((length (tool_history st) + length (chat_history st)) * 5))
        by congruence.
      destruct (Nat.min_spec 100
                  ((length (tool_history st) + length (chat_history st)) * 5))
        as [[Hle E]|[Hle E]]; rewrite E in Hmin; lia.
    + split; [split; [intros _; lia | reflexivity]|]. discriminate.
Qed.

(** X20. Over a session the figures of the dashboard never go down: whatever
    runs of the script happen, the counts of tool records and of chats,
    the activity of any given month and the productivity score are at
    least what they were. *)
Theorem dashboard_metrics_grow (runs : list (datetime * action)) (st : State)
    (current_month : string) :
  let m := dashboard_metrics st current_month in
  let m' := dashboard_metrics (run_session runs st) current_month in
  total_tools m <= total_tools m' /\
  total_chats m <= total_chats m' /\
  total_usage m <= total_usage m' /\
  this_month_activity m <= this_month_activity m' /\
  (forall p, productivity_score m = Some p ->
             exists p', productivity_score m' = Some p' /\ p <= p').
Proof.
  intros m m'. subst m m'.
  destruct (run_session_extends runs st) as [Ht Hc].
  pose proof (prefix_length _ _ Ht) as Hlt.
  pose proof (prefix_length _ _ Hc) as Hlc.
  unfold dashboard_metrics.
  cbn [total_tools total_chats total_usage this_month_activity productivity_score].
  split; [exact Hlt|]. split; [exact Hlc|]. split; [lia|]. split.
  - rewrite !monthly_usage_length.
    pose proof (filter_prefix_length
                  (fun item => String.eqb (tool.month item) current_month) _ _ Ht).
    pose proof (filter_prefix_length
                  (fun chat => String.eqb (chat.month chat) current_month) _ _ Hc).
    lia.
  - intros p.
    destruct (Nat.ltb_spec 0 (length (tool_history st) + length (chat_history st)))
      as [Hpos|Hzero]; [|discriminate].
    intros Hp.
    assert (Hmin : p = Nat.min 100
              ((length (tool_history st) + length (chat_history st)) * 5))
      by congruence.
    rewrite Hmin. clear Hp Hmin.
    destruct (Nat.ltb_spec 0 (length (tool_history (run_session runs st))
                              + length (chat_history (run_session runs st))))
      as [Hpos'|Hzero']; [|lia].
    eexists. split; [reflexivity|].
    apply Nat.min_le_compat_l. lia.
Qed.

End dashboard_figures.

(** ** The text of the PDF report *)

Lemma replace_newlines_clean (text : string) :
  str_contains nl (replace_newlines text) = false.
Proof.
  induction text as [|c text IH]; [reflexivity|].
  cbn [replace_newlines]. destruct (Ascii.eqb_spec c (ascii_of_nat 10)) as [->|Hne].
  - exact IH.
  - rewrite str_contains_unfold, IH.
    unfold nl. cbn [String.prefix].
    destruct (ascii_dec (ascii_of_nat 10) c) as [Heq|_]; [now destruct Hne|].
    reflexivity.
Qed.

Lemma replace_newlines_without (text : string) :
  str_contains nl text = false -> replace_newlines text = text.
Proof.
  induction text as [|c text IH]; [reflexivity|].
  rewrite str_contains_unfold. intros Hc.
  apply orb_false_iff in Hc as [Hp Hr].
  cbn [replace_newlines]. destruct (Ascii.eqb_spec c (ascii_of_nat 10)) as [->|Hne].
  - destruct text; discriminate.
  - now rewrite (IH Hr).
Qed.

Lemma replace_newlines_app (a b : string) :
  replace_newlines (a +:+ b) = replace_newlines a +:+ replace_newlines b.
Proof.
  induction a as [|c a IH]; [reflexivity|].
  change (String c a +:+ b) with (String c (a +:+ b)).
  cbn [replace_newlines]. destruct (Ascii.eqb c (ascii_of_nat 10)).
  - now rewrite IH, string_app_assoc.
  - now rewrite IH.
Qed.

(** X21. The text of the PDF report: [text.replace("\n", "<br/>")] puts the
    line break ["<br/>"] of the markup in the place of every newline and
    keeps everything else, so that a text split at a newline becomes the
    two parts, each treated the same way, around ["<br/>"]; no newline is
    left in the result, and a text without newlines is unchanged. *)
Theorem replace_newlines_line_breaks (before after text : string) :
  replace_newlines (before +:+ nl +:+ after)
  = replace_newlines before +:+ "<br/>" +:+ replace_newlines after /\
  ~ occurs nl (replace_newlines text) /\
  (~ occurs nl text -> replace_newlines text = text).
Proof.
  split; [|split].
  - now rewrite !replace_newlines_app.
  - apply str_contains_false, replace_newlines_clean.
  - intros Hno. now apply replace_newlines_without, str_contains_false.
Qed.

(** ** More instances on concrete sessions *)

Section more_examples.
Local Existing Instance example_runtime.

Lemma reply_with_is_completion (v : pyval) (prompt : string) :
  exists payload,
    reply_with v prompt = Return (Response (Return payload)) /\
    completion_content payload v.
Proof.
  eexists. split; [reflexivity|].
  do 4 eexists. repeat split; reflexivity.
Defined.

Lemma groq_generate_first_choice_witness :
  (exists payload,
     reply_with (PStr "Hello") "hi" = Return (Response (Return payload)) /\
     completion_content payload (PStr "Hello")) /\
  groq_generate (reply_with (PStr "Hello")) "hi" = PStr "Hello".
Proof.
  split; [apply reply_with_is_completion|].
  destruct (reply_with_is_completion (PStr "Hello") "hi") as (payload & Hp & Hc).
  exact (proj1 (groq_generate_first_choice _ _ _ _ Hp Hc)).
Defined.

Lemma groq_generate_without_choices_witness :
  groq_generate (error_reply "Invalid API Key") "hi"
  = PStr "Groq API Error: Invalid API Key".
Proof.
  exact (groq_generate_without_choices (error_reply "Invalid API Key") "hi"
           _ eq_refl eq_refl).
Defined.

Lemma empty_choices_not_completion :
  forall v, ~ completion_content (PDict empty_choices) v.
Proof.
  intros v (entries & first & others & message & E & Hc & _).
  injection E as <-. discriminate.
Defined.

Lemma groq_generate_broken_choices_witness :
  (forall v, ~ completion_content (PDict empty_choices) v) /\
  groq_generate empty_choices_reply "hi"
  = PStr ("Exception occurred: " +:+ exn_str IndexError).
Proof.
  split; [exact empty_choices_not_completion|].
  exact (proj2 (groq_generate_broken_choices empty_choices_reply "hi"
                  empty_choices (PList []) eq_refl eq_refl
                  empty_choices_not_completion) eq_refl).
Defined.

Lemma timeout_text_is_neutral :
  ~ occurs "High" (exn_str (Raised "ReadTimeout" "timeout")) /\
  ~ occurs "Medium" (exn_str (Raised "ReadTimeout" "timeout")).
Proof. split; apply str_contains_false; reflexivity. Defined.

Lemma outage_is_scored_witness :
  timed_out (lead_prompt "asked for a quote") = Raise (Raised "ReadTimeout" "timeout") /\
  safe_hf timed_out "asked for a quote" = LeadScore 30 "Low Intent".
Proof.
  split; [reflexivity|].
  exact (proj2 (proj2 (outage_is_scored timed_out "asked for a quote" _ eq_refl))
           (proj1 timeout_text_is_neutral) (proj2 timeout_text_is_neutral)).
Defined.

Lemma high_demand_occurs : occurs "High" "High demand, try again later".
Proof. apply str_contains_spec. reflexivity. Defined.

Lemma api_error_is_scored_witness :
  occurs "High" "High demand, try again later" /\
  safe_hf (error_reply "High demand, try again later") "asked for a quote"
  = LeadScore 90 "High Intent".
Proof.
  split; [exact high_demand_occurs|].
  exact (proj1 (api_error_is_scored (error_reply "High demand, try again later")
                  "asked for a quote" _ _ _ eq_refl eq_refl eq_refl eq_refl)
           high_demand_occurs).
Defined.

Lemma echo_repeats_prompt :
  occurs (lead_prompt "asked for a quote") (lead_prompt "asked for a quote").
Proof. exists "", "". reflexivity. Defined.

Lemma echoed_prompt_is_high_witness :
  groq_generate echo (lead_prompt "asked for a quote")
  = PStr (lead_prompt "asked for a quote") /\
  safe_hf echo "asked for a quote" = LeadScore 90 "High Intent".
Proof.
  split; [reflexivity|].
  exact (echoed_prompt_is_high echo "asked for a quote" _ eq_refl echo_repeats_prompt).
Defined.

Lemma sidebar_navigation_witness :
  nth_error nav_items 6 = Some ("AI Chat", "Chat") /\
  page (fst (script_run sample_time (SidebarNav 6) sample_with_history)) = "Chat".
Proof.
  split; [reflexivity|].
  now rewrite (sidebar_navigation sample_time 6 "AI Chat" "Chat"
                 sample_with_history eq_refl).
Defined.

Lemma two_tool_records :
  0 < length (tool_history sample_two_tools) /\
  1 < length (tool_history sample_two_tools).
Proof. cbn. lia. Defined.

Lemma sidebar_tool_history_button_witness :
  (0 < length (tool_history sample_two_tools) /\
   1 < length (tool_history sample_two_tools)) /\
  script_run sample_time (SidebarTool 0) sample_two_tools =
  ({| page := "History";
      tool_history := [sample_record; sample_later_record];
      chat_history := [];
      current_chat := [];
      selected_item := Some (ToolItem sample_later_record) |}, Rerun) /\
  script_run sample_time (SidebarTool 1) sample_two_tools =
  ({| page := "History";
      tool_history := [sample_record; sample_later_record];
      chat_history := [];
      current_chat := [];
      selected_item := Some (ToolItem sample_record) |}, Rerun).
Proof.
  split; [exact two_tool_records|]. split.
  - destruct (sidebar_tool_history_button sample_time 0 sample_two_tools
                (proj1 two_tool_records)) as (r & Hr & Hrun).
    injection Hr as <-. exact Hrun.
  - destruct (sidebar_tool_history_button sample_time 1 sample_two_tools
                (proj2 two_tool_records)) as (r & Hr & Hrun).
    injection Hr as <-. exact Hrun.
Defined.

Lemma two_chat_records :
  0 < length (chat_history sample_two_chats) /\
  1 < length (chat_history sample_two_chats).
Proof. cbn. lia. Defined.

Lemma sidebar_chat_history_button_witness :
  (0 < length (chat_history sample_two_chats) /\
   1 < length (chat_history sample_two_chats)) /\
  script_run sample_time (SidebarChat 0) sample_two_chats =
  ({| page := "ChatHistory";
      tool_history := [];
      chat_history := [chat_record sample_time (current_chat sample_chatting);
                       sample_later_chat];
      current_chat := [];
      selected_item := Some (ChatItem sample_later_chat) |}, Rerun) /\
  script_run sample_time (SidebarChat 1) sample_two_chats =
  ({| page := "ChatHistory";
      tool_history := [];
      chat_history := [chat_record sample_time (current_chat sample_chatting);
                       sample_later_chat];
      current_chat := [];
      selected_item :=
        Some (ChatItem (chat_record sample_time (current_chat sample_chatting))) |},
   Rerun).
Proof.
  split; [exact two_chat_records|]. split.
  - destruct (sidebar_chat_history_button sample_time 0 sample_two_chats
                (proj1 two_chat_records)) as (c & Hc & Hrun).
    injection Hc as <-. exact Hrun.
  - destruct (sidebar_chat_history_button sample_time 1 sample_two_chats
                (proj2 two_chat_records)) as (c & Hc & Hrun).
    injection Hc as <-. exact Hrun.
Defined.

Lemma lead_page_output_witness :
  page sample_on_lead = "Lead" /\
  exists output,
    script_run sample_time (LeadScoreClick "asked for a quote" (reply_with PNone))
      sample_on_lead =
    (save_tool_history sample_time "Lead" "asked for a quote" (PStr output)
       sample_on_lead, Continue) /\
    In output [ "Score: 90 | Intent: High Intent";
                "Score: 65 | Intent: Medium Intent";
                "Score: 30 | Intent: Low Intent";
                "Score: 0 | Intent: Error: " +:+ exn_str TypeError ].
Proof.
  split; [reflexivity|].
  exact (lead_page_output sample_time "asked for a quote" (reply_with PNone)
           sample_on_lead eq_refl).
Defined.

End more_examples.
